(** * A shallow embedding of the [logger] package

    The development follows [src/logger/_logger.py], the module that the
    package's [__init__.py] re-exports.  Python values are modelled by the
    inductive type [pyval]; a Python [str] is a Rocq [string] whose
    characters stand for the code points 0..255; exceptions are values of
    [exn] carried by the [outcome] monad; text streams live in a store
    indexed by stream references, so that two loggers built on one stream
    share it.  Values are finite trees, so a container never holds
    itself; dict keys are strings, as the annotations of the source say,
    and a dict is the list of its items in insertion order.  Floats are
    left out of [pyval]. *)

From Stdlib Require Import ZArith Lia List Bool Ascii String DecimalString.
Import ListNotations.

Open Scope list_scope.
Open Scope string_scope.

(** ** Exceptions and the error monad *)

Inductive exn : Type :=
| ValueError
| TypeError
| AttributeError.

Inductive outcome (A : Type) : Type :=
| Return (a : A)
| Raise (e : exn).

Arguments Return {A} a.
Arguments Raise {A} e.

Definition bind {A B : Type} (c : outcome A) (k : A -> outcome B) : outcome B :=
  match c with
  | Return a => k a
  | Raise e => Raise e
  end.

Notation "x <- c ;; k" := (bind c (fun x => k))
  (at level 61, c at next level, right associativity).

Definition returns {A : Type} (c : outcome A) : bool :=
  match c with
  | Return _ => true
  | Raise _ => false
  end.

(** ** Characters that the source writes with escapes *)

Definition DQUOTE : ascii := "034"%char.
Definition BACKSLASH : ascii := "092"%char.
Definition ESC : ascii := "027"%char.
Definition LF : ascii := "010"%char.

Definition chr (c : ascii) : string := String c EmptyString.

(** ** Log levels *)

Definition TRACE : Z := 0.
Definition DEBUG : Z := 10.
Definition INFO : Z := 20.
Definition WARN : Z := 30.
Definition ERROR : Z := 40.
Definition CRITICAL : Z := 50.

Module LogLevel.

(** [class LogLevel(enum.IntEnum)]: the six members. *)
Inductive t : Type :=
| TRACE
| DEBUG
| INFO
| WARN
| ERROR
| CRITICAL.

Definition value (l : t) : Z :=
  match l with
  | TRACE => 0
  | DEBUG => 10
  | INFO => 20
  | WARN => 30
  | ERROR => 40
  | CRITICAL => 50
  end%Z.

Definition name (l : t) : string :=
  match l with
  | TRACE => "TRACE"
  | DEBUG => "DEBUG"
  | INFO => "INFO"
  | WARN => "WARN"
  | ERROR => "ERROR"
  | CRITICAL => "CRITICAL"
  end.

Definition members : list t := [TRACE; DEBUG; INFO; WARN; ERROR; CRITICAL].

(** [LogLevel(z)]: the member whose value is [z]; Python raises
    [ValueError] when there is none. *)
Definition of_value (z : Z) : outcome t :=
  match find (fun l => Z.eqb (value l) z) members with
  | Some l => Return l
  | None => Raise ValueError
  end.

End LogLevel.

(** A Python object that is an [int]: either a member of the [IntEnum]
    or a plain integer.  Both compare by their integer value; only the
    former has a [name] attribute. *)
Inductive pyint : Type :=
| IntEnum (l : LogLevel.t)
| Int (z : Z).

Definition int_value (i : pyint) : Z :=
  match i with
  | IntEnum l => LogLevel.value l
  | Int z => z
  end.

(** [level.name] *)
Definition attr_name (i : pyint) : outcome string :=
  match i with
  | IntEnum l => Return (LogLevel.name l)
  | Int _ => Raise AttributeError
  end.

(** ** Python values *)

#[local] Set Warnings "-register-all".

Inductive pyval : Type :=
| PyNone
| PyBool (b : bool)
| PyInt (z : Z)
| PyEnum (l : LogLevel.t)
| PyStr (s : string)
| PyList (l : list pyval)
| PyDict (d : list (string * pyval))
| PyObject (cls : string).

(** [bool(v)], the test made by [if v:]. *)
Definition truthy (v : pyval) : bool :=
  match v with
  | PyNone => false
  | PyBool b => b
  | PyInt z => negb (Z.eqb z 0)
  | PyEnum l => negb (Z.eqb (LogLevel.value l) 0)
  | PyStr s => negb (String.eqb s "")
  | PyList l => match l with [] => false | _ :: _ => true end
  | PyDict d => match d with [] => false | _ :: _ => true end
  | PyObject _ => true
  end.

(** [v.__class__.__name__] *)
Definition class_name (v : pyval) : string :=
  match v with
  | PyNone => "NoneType"
  | PyBool _ => "bool"
  | PyInt _ => "int"
  | PyEnum _ => "LogLevel"
  | PyStr _ => "str"
  | PyList _ => "list"
  | PyDict _ => "dict"
  | PyObject cls => cls
  end.

(** [isinstance(v, int)], giving the integer object when it holds;
    [bool] is a subclass of [int], and a bool is kept as the integer it
    equals. *)
Definition as_int (v : pyval) : option pyint :=
  match v with
  | PyInt z => Some (Int z)
  | PyBool b => Some (Int (if b then 1 else 0))
  | PyEnum l => Some (IntEnum l)
  | _ => None
  end.

(** ** The standard library's [json.dumps] with its default arguments
    ([ensure_ascii=True], separators [", "] and [": "], no indentation),
    after CPython's [Lib/json/encoder.py]

    A [pyval] is a finite tree: a container that holds itself, for which
    the encoder raises [ValueError], cannot be written down, and nothing
    below says which exceptions the encoder is limited to. *)

Module json.

Definition hex_digit (n : nat) : ascii :=
  match get n "0123456789abcdef" with
  | Some c => c
  | None => "0"%char
  end.

(** The [replace] callback of [py_encode_basestring_ascii]: the
    [ESCAPE_DCT] entries, then the four-digit escape for every other
    character outside [' '..'~']. *)
Definition replace (c : ascii) : string :=
  let n := nat_of_ascii c in
  if Ascii.eqb c BACKSLASH then String BACKSLASH (chr BACKSLASH)
  else if Ascii.eqb c DQUOTE then String BACKSLASH (chr DQUOTE)
  else if Nat.eqb n 8 then String BACKSLASH "b"
  else if Nat.eqb n 12 then String BACKSLASH "f"
  else if Nat.eqb n 10 then String BACKSLASH "n"
  else if Nat.eqb n 13 then String BACKSLASH "r"
  else if Nat.eqb n 9 then String BACKSLASH "t"
  else if Nat.ltb n 32 || Nat.ltb 126 n then
    String BACKSLASH ("u00" ++ String (hex_digit (n / 16)) (chr (hex_digit (n mod 16))))
  else chr c.

Fixpoint escape (s : string) : string :=
  match s with
  | EmptyString => EmptyString
  | String c r => replace c ++ escape r
  end.

Definition encode_basestring_ascii (s : string) : string :=
  chr DQUOTE ++ escape s ++ chr DQUOTE.

(** [int.__repr__] *)
Definition intstr (z : Z) : string :=
  NilZero.string_of_int (Z.to_int z).

Fixpoint dumps (o : pyval) : outcome string :=
  match o with
  | PyStr s => Return (encode_basestring_ascii s)
  | PyNone => Return "null"
  | PyBool true => Return "true"
  | PyBool false => Return "false"
  | PyInt z => Return (intstr z)
  | PyEnum l => Return (intstr (LogLevel.value l))
  | PyList lst =>
      chunks <- (fix each (l : list pyval) : outcome (list string) :=
                   match l with
                   | [] => Return []
                   | value :: r =>
                       c <- dumps value ;;
                       cs <- each r ;;
                       Return (c :: cs)
                   end) lst ;;
      Return ("[" ++ String.concat ", " chunks ++ "]")
  | PyDict dct =>
      chunks <- (fix each (l : list (string * pyval)) : outcome (list string) :=
                   match l with
                   | [] => Return []
                   | (key, value) :: r =>
                       c <- dumps value ;;
                       cs <- each r ;;
                       Return ((encode_basestring_ascii key ++ ": " ++ c) :: cs)
                   end) dct ;;
      Return ("{" ++ String.concat ", " chunks ++ "}")
  | PyObject _ => Raise TypeError
  end.

(** The chunks that [dumps] joins for the elements of a list and for the
    items of a dict, in their order. *)
Fixpoint list_chunks (l : list pyval) : outcome (list string) :=
  match l with
  | [] => Return []
  | value :: r =>
      c <- dumps value ;;
      cs <- list_chunks r ;;
      Return (c :: cs)
  end.

Fixpoint dict_chunks (l : list (string * pyval)) : outcome (list string) :=
  match l with
  | [] => Return []
  | (key, value) :: r =>
      c <- dumps value ;;
      cs <- dict_chunks r ;;
      Return ((encode_basestring_ascii key ++ ": " ++ c) :: cs)
  end.

End json.

(** ** Messages *)

Record Message : Type := mkMessage {
  msg : string;
  level : pyint;
  issuer : string;
  data : pyval
}.

(** The dataclass's generated [__init__]: [issuer] defaults to ["root"]
    and [data] to a fresh [dict()]; an argument that is passed, [None]
    included, is stored as it is. *)
Definition Message_init (msg : string) (level : pyint)
    (issuer : option string) (data : option pyval) : Message :=
  {| msg := msg;
     level := level;
     issuer := match issuer with Some i => i | None => "root" end;
     data := match data with Some d => d | None => PyDict [] end |}.

(** ** Formatters *)

Module TextLogger.

Definition _format (m : Message) : outcome string :=
  let issuer := issuer m in
  let text := msg m in
  data <- (if truthy (data m) then json.dumps (data m) else Return "") ;;
  name <- attr_name (level m) ;;
  let result := "(" ++ name ++ ")[" ++ issuer ++ "] " ++ text in
  let result := if negb (String.eqb data "") then result ++ " -> " ++ data else result in
  Return result.

End TextLogger.

Module ColorfulLogger.

Definition _CLEAR : string := String ESC "[0m".

Definition _color_picker (level : pyint) : string :=
  let level := int_value level in
  (if level =? LogLevel.value LogLevel.TRACE then
     String ESC "[90m"
   else if (LogLevel.value LogLevel.TRACE <? level) && (level <=? LogLevel.value LogLevel.DEBUG) then
     String ESC "[37m"
   else if (LogLevel.value LogLevel.DEBUG <? level) && (level <=? LogLevel.value LogLevel.INFO) then
     String ESC "[34m"
   else if (LogLevel.value LogLevel.INFO <? level) && (level <=? LogLevel.value LogLevel.WARN) then
     String ESC "[33m"
   else if (LogLevel.value LogLevel.WARN <? level) && (level <=? LogLevel.value LogLevel.ERROR) then
     String ESC "[31;1m"
   else if (LogLevel.value LogLevel.ERROR <? level) && (level <=? LogLevel.value LogLevel.CRITICAL) then
     String ESC "[1;38;5;99m"
   else
     String ESC "[1;38;5;51m")%Z.

Definition _format (m : Message) : outcome string :=
  let issuer := issuer m in
  let text := msg m in
  data <- (if truthy (data m) then json.dumps (data m) else Return "") ;;
  let result := _color_picker (level m) ++ "[" ++ issuer ++ "] " ++ text in
  let result := if negb (String.eqb data "") then result ++ " -> " ++ data else result in
  let result := result ++ _CLEAR in
  Return result.

End ColorfulLogger.

(** ** Text streams

    A stream is a shared object: loggers hold a reference to it and the
    store maps each reference to what has been written to it, one entry
    per call of [write], and how often it was flushed. *)

Inductive stream_ref : Type :=
| sys_stdout
| stream_at (id : nat).

Definition stream_ref_eqb (a b : stream_ref) : bool :=
  match a, b with
  | sys_stdout, sys_stdout => true
  | stream_at i, stream_at j => Nat.eqb i j
  | _, _ => false
  end.

Record Stream : Type := mkStream {
  written : list string;
  flushes : nat
}.

Definition World : Type := stream_ref -> Stream.

Definition empty_world : World := fun _ => {| written := []; flushes := 0 |}.

Definition write (r : stream_ref) (s : string) (w : World) : World :=
  fun r' =>
    if stream_ref_eqb r r'
    then {| written := (written (w r) ++ [s])%list; flushes := flushes (w r) |}
    else w r'.

Definition flush (r : stream_ref) (w : World) : World :=
  fun r' =>
    if stream_ref_eqb r r'
    then {| written := written (w r); flushes := S (flushes (w r)) |}
    else w r'.

(** ** Loggers *)

Inductive logger_class : Type :=
| cls_TextLogger
| cls_ColorfulLogger.

Record Logger : Type := mkLogger {
  __class__ : logger_class;
  _level : pyint;
  _stream : stream_ref;
  _issuer : string
}.

Module Logger.

(** [Logger.__init__], run by the constructor of either subclass. *)
Definition __init__ (cls : logger_class) (level : pyint) (issuer : pyval)
    (stream : option stream_ref) : Logger :=
  {| __class__ := cls;
     _level := level;
     _stream := match stream with Some s => s | None => sys_stdout end;
     _issuer := match issuer with
                | PyStr s => s
                | _ => class_name issuer
                end |}.

Definition log_level (self : Logger) : pyint := _level self.

(** The setter of the [log_level] property; the logger it returns is
    the object after the call, also when the call raises. *)
Definition set_log_level (self : Logger) (level : pyval) : outcome unit * Logger :=
  match as_int level with
  | None => (Raise ValueError, self)
  | Some i =>
      if (int_value i <? 0)%Z then (Raise ValueError, self)
      else (Return tt,
            {| __class__ := __class__ self;
               _level := i;
               _stream := _stream self;
               _issuer := _issuer self |})
  end.

(** The abstract [_format], resolved on the object's class. *)
Definition _format (self : Logger) (m : Message) : outcome string :=
  match __class__ self with
  | cls_TextLogger => TextLogger._format m
  | cls_ColorfulLogger => ColorfulLogger._format m
  end.

Definition __log (self : Logger) (m : Message) (w : World) : outcome unit * World :=
  match _format self m with
  | Raise e => (Raise e, w)
  | Return formatted =>
      let w := write (_stream self) (formatted ++ chr LF) w in
      let w := flush (_stream self) w in
      (Return tt, w)
  end.

Definition log (self : Logger) (m : Message) (w : World) : outcome unit * World :=
  if (int_value (level m) <? int_value (_level self))%Z then (Return tt, w)
  else __log self m w.

(** The [message] built by a convenience method; [data] is the
    method's optional argument, [None] when the caller leaves it out. *)
Definition message_of (l : LogLevel.t) (self : Logger) (text : string)
    (data : option pyval) : Message :=
  let data := match data with Some d => d | None => PyNone end in
  Message_init text (IntEnum l) (Some (_issuer self)) (Some data).

Definition trace (self : Logger) (text : string) (data : option pyval) (w : World) :=
  let message := message_of LogLevel.TRACE self text data in
  log self message w.

Definition debug (self : Logger) (text : string) (data : option pyval) (w : World) :=
  let message := message_of LogLevel.DEBUG self text data in
  log self message w.

Definition info (self : Logger) (text : string) (data : option pyval) (w : World) :=
  let message := message_of LogLevel.INFO self text data in
  log self message w.

Definition warning (self : Logger) (text : string) (data : option pyval) (w : World) :=
  let message := message_of LogLevel.WARN self text data in
  log self message w.

Definition error (self : Logger) (text : string) (data : option pyval) (w : World) :=
  let message := message_of LogLevel.ERROR self text data in
  log self message w.

Definition critical (self : Logger) (text : string) (data : option pyval) (w : World) :=
  let message := message_of LogLevel.CRITICAL self text data in
  log self message w.

End Logger.

(** ** Configuration and the factory *)

Record LoggerConfig : Type := mkLoggerConfig {
  config_level : pyint;
  colors : bool;
  stream : stream_ref
}.

(** [LoggerConfig(level=..., colors=..., stream=...)] with the
    dataclass's defaults for the arguments left out. *)
Definition LoggerConfig_init (level : option pyint) (colors : option bool)
    (stream : option stream_ref) : LoggerConfig :=
  {| config_level := match level with Some l => l | None => IntEnum LogLevel.INFO end;
     colors := match colors with Some c => c | None => false end;
     stream := match stream with Some s => s | None => sys_stdout end |}.

Definition create_logger (config : option LoggerConfig) (issuer : option pyval) : Logger :=
  let issuer := match issuer with
                | None | Some PyNone => PyStr "root"
                | Some i => i
                end in
  let config := match config with None => LoggerConfig_init None None None | Some c => c end in
  if colors config then
    Logger.__init__ cls_ColorfulLogger (config_level config) issuer (Some (stream config))
  else
    Logger.__init__ cls_TextLogger (config_level config) issuer (Some (stream config)).

(** ** Notions used to state properties of the output *)

(** [c in s] for a character. *)
Fixpoint mem_char (c : ascii) (s : string) : bool :=
  match s with
  | EmptyString => false
  | String x r => Ascii.eqb c x || mem_char c r
  end.

(** [p in s] for a string: [p] occurs in [s] as a substring. *)
Fixpoint occurs (p s : string) : bool :=
  prefix p s ||
  match s with
  | EmptyString => false
  | String _ r => occurs p r
  end.

(** The characters [' '..'~']. *)
Definition printable (c : ascii) : bool :=
  Nat.leb 32 (nat_of_ascii c) && Nat.leb (nat_of_ascii c) 126.

Fixpoint all_printable (s : string) : bool :=
  match s with
  | EmptyString => true
  | String c r => printable c && all_printable r
  end.

(** The colours of the bands, as the escape sequences of the source. *)
Definition GRAY : string := String ESC "[90m".
Definition LIGHT_GRAY : string := String ESC "[37m".
Definition BLUE : string := String ESC "[34m".
Definition YELLOW : string := String ESC "[33m".
Definition BOLD_RED : string := String ESC "[31;1m".
Definition BOLD_MAGENTA : string := String ESC "[1;38;5;99m".
Definition BOLD_CYAN : string := String ESC "[1;38;5;51m".

Definition palette : list string :=
  [GRAY; LIGHT_GRAY; BLUE; YELLOW; BOLD_RED; BOLD_MAGENTA; BOLD_CYAN].

(** The separator between the message and its data. *)
Definition ARROW : string := " -> ".

(** The logger after an assignment to its threshold. *)
Definition with_level (self : Logger) (i : pyint) : Logger :=
  {| __class__ := __class__ self;
     _level := i;
     _stream := _stream self;
     _issuer := _issuer self |}.

(** The text of a plain line before its data. *)
Definition plain_head (l : LogLevel.t) (m : Message) : string :=
  "(" ++ LogLevel.name l ++ ")[" ++ issuer m ++ "] " ++ msg m.

(** The text of a coloured line before its data. *)
Definition color_head (m : Message) : string :=
  ColorfulLogger._color_picker (level m) ++ "[" ++ issuer m ++ "] " ++ msg m.

(** What either formatter returns for [m]. *)
Definition formats_to (m : Message) (out : string) : Prop :=
  TextLogger._format m = Return out \/ ColorfulLogger._format m = Return out.

(** The separator property read literally: the line holds [" -> "]
    exactly when the data is not empty. *)
Definition separator_iff_data : Prop :=
  forall (m : Message) (out : string),
    formats_to m out ->
    (occurs ARROW out = true <-> truthy (data m) = true).

(** The normalisation property read literally: a convenience method
    called without data builds a message whose data is the empty dict. *)
Definition omitted_data_is_empty_dict : Prop :=
  forall (l : LogLevel.t) (self : Logger) (text : string),
    data (Logger.message_of l self text None) = PyDict [].

(** The setter property read literally: an integer that is no member of
    [LogLevel] is refused. *)
Definition setter_rejects_unranked : Prop :=
  forall (self : Logger) (z : Z),
    LogLevel.of_value z = Raise ValueError ->
    fst (Logger.set_log_level self (PyInt z)) = Raise ValueError.

(** ** The scenarios used as examples *)

(** [create_logger(LoggerConfig(level=LogLevel.INFO, colors=False), "svc")] *)
Definition svc_logger : Logger :=
  create_logger
    (Some (LoggerConfig_init (Some (IntEnum LogLevel.INFO)) (Some false) None))
    (Some (PyStr "svc")).

(** [create_logger(LoggerConfig(colors=True))] *)
Definition color_logger : Logger :=
  create_logger (Some (LoggerConfig_init None (Some true) None)) None.

(** [{"pct": 91}] *)
Definition pct_91 : pyval := PyDict [("pct", PyInt 91)].

(** [Message("disk low", LogLevel.WARN, "svc", {"pct": 91})] *)
Definition disk_low : Message :=
  Message_init "disk low" (IntEnum LogLevel.WARN) (Some "svc") (Some pct_91).

(** [Message("started", LogLevel.INFO)] *)
Definition started : Message :=
  Message_init "started" (IntEnum LogLevel.INFO) None None.

(** [Message("a -> b", LogLevel.INFO)]: no data, an arrow in the text. *)
Definition arrow_text : Message :=
  Message_init "a -> b" (IntEnum LogLevel.INFO) None None.

(** ** Sequences of calls *)

(** The test of [log] read positively: the event is not discarded. *)
Definition passes (self : Logger) (m : Message) : bool :=
  negb (int_value (level m) <? int_value (_level self))%Z.

(** A script [lg1.log(m1); lg2.log(m2); ...]: the calls run in order and
    the first exception ends the script. *)
Fixpoint log_all (calls : list (Logger * Message)) (w : World) : outcome unit * World :=
  match calls with
  | [] => (Return tt, w)
  | (self, m) :: rest =>
      match Logger.log self m w with
      | (Return _, w') => log_all rest w'
      | (Raise e, w') => (Raise e, w')
      end
  end.

(** The lines that a script sends to the stream [r]. *)
Fixpoint emitted (r : stream_ref) (calls : list (Logger * Message)) : list string :=
  match calls with
  | [] => []
  | (self, m) :: rest =>
      match Logger._format self m with
      | Return formatted =>
          if stream_ref_eqb (_stream self) r && passes self m
          then (formatted ++ chr LF) :: emitted r rest
          else emitted r rest
      | Raise _ => emitted r rest
      end
  end.

(** ** The draft module [src/logger/logger.py]

    The package does not import this module.  Its [Logger.log] calls
    itself where [_logger.py] calls [__log]; [depth] is the number of
    calls that the interpreter's stack still admits, and a call made at
    depth 0 raises [RecursionError].  The methods take [data] as a
    required argument, there is no [error], and [fatal] is [critical]. *)

Module draft.

Inductive log_result : Type :=
| Returned
| RecursionError.

Fixpoint log (depth : nat) (self : Logger) (m : Message) (w : World)
    : log_result * World :=
  match depth with
  | O => (RecursionError, w)
  | S depth =>
      if (int_value (level m) <? int_value (_level self))%Z then (Returned, w)
      else log depth self m w
  end.

Definition trace (depth : nat) (self : Logger) (text : string) (data : pyval) (w : World) :=
  let message := Message_init text (IntEnum LogLevel.TRACE) (Some (_issuer self)) (Some data) in
  log depth self message w.

Definition debug (depth : nat) (self : Logger) (text : string) (data : pyval) (w : World) :=
  let message := Message_init text (IntEnum LogLevel.DEBUG) (Some (_issuer self)) (Some data) in
  log depth self message w.

Definition info (depth : nat) (self : Logger) (text : string) (data : pyval) (w : World) :=
  let message := Message_init text (IntEnum LogLevel.INFO) (Some (_issuer self)) (Some data) in
  log depth self message w.

Definition warning (depth : nat) (self : Logger) (text : string) (data : pyval) (w : World) :=
  let message := Message_init text (IntEnum LogLevel.WARN) (Some (_issuer self)) (Some data) in
  log depth self message w.

Definition critical (depth : nat) (self : Logger) (text : string) (data : pyval) (w : World) :=
  let message := Message_init text (IntEnum LogLevel.TRACE) (Some (_issuer self)) (Some data) in
  log depth self message w.

Definition fatal := critical.

End draft.

(** A logger that writes plain lines to the stream numbered 7. *)
Definition file_logger : Logger :=
  create_logger
    (Some (LoggerConfig_init (Some (IntEnum LogLevel.DEBUG)) None (Some (stream_at 7))))
    (Some (PyStr "db")).

(** [Message("query", LogLevel.ERROR, "db", {"path": "a\nb"})]: a
    newline inside the data. *)
Definition two_lines : Message :=
  Message_init "query" (IntEnum LogLevel.ERROR) (Some "db")
    (Some (PyDict [("path", PyStr (String "a" (String LF "b")))])).

(** [Message("dump", LogLevel.ERROR, "db", {"conn": object()})] *)
Definition bad_data : Message :=
  Message_init "dump" (IntEnum LogLevel.ERROR) (Some "db")
    (Some (PyDict [("conn", PyObject "object")])).

(** [Message("tick", 25)]: a level between [INFO] and [WARN]. *)
Definition tick_25 : Message :=
  Message_init "tick" (Int 25) None None.

(** * Properties *)

(** ** Strings *)

Lemma append_assoc (a b c : string) : (a ++ b) ++ c = a ++ b ++ c.
Proof.
  induction a as [|x a IH]; simpl; [reflexivity | now rewrite IH].
Qed.

Lemma mem_char_app (c : ascii) (a b : string) :
  mem_char c (a ++ b) = mem_char c a || mem_char c b.
Proof.
  induction a as [|x a IH]; cbn [mem_char append]; [reflexivity |].
  now rewrite IH, orb_assoc.
Qed.

Lemma all_printable_app (a b : string) :
  all_printable (a ++ b) = all_printable a && all_printable b.
Proof.
  induction a as [|x a IH]; cbn [all_printable append]; [reflexivity |].
  now rewrite IH, andb_assoc.
Qed.

Lemma printable_not_ESC (s : string) :
  all_printable s = true -> mem_char ESC s = false.
Proof.
  induction s as [|x s IH]; cbn [mem_char all_printable]; [reflexivity |].
  intros H. apply andb_true_iff in H. destruct H as [Hx Hs].
  rewrite (IH Hs), orb_false_r.
  destruct (Ascii.eqb ESC x) eqn:E; [| reflexivity].
  apply Ascii.eqb_eq in E. subst x. discriminate Hx.
Qed.

Lemma all_printable_concat (sep : string) (ls : list string) :
  all_printable sep = true ->
  Forall (fun s => all_printable s = true) ls ->
  all_printable (String.concat sep ls) = true.
Proof.
  intros Hsep H. induction H as [|s ls Hs Hls IH]; [reflexivity |].
  destruct ls as [|s' ls]; [exact Hs |].
  change (all_printable (s ++ sep ++ String.concat sep (s' :: ls)) = true).
  now rewrite !all_printable_app, Hs, Hsep, IH.
Qed.

(** ** Induction on Python values, through lists and dicts *)

Section pyval_induction.

Variable P : pyval -> Prop.
Hypothesis HNone : P PyNone.
Hypothesis HBool : forall b, P (PyBool b).
Hypothesis HInt : forall z, P (PyInt z).
Hypothesis HEnum : forall l, P (PyEnum l).
Hypothesis HStr : forall s, P (PyStr s).
Hypothesis HList : forall l, Forall P l -> P (PyList l).
Hypothesis HDict : forall d, Forall (fun kv => P (snd kv)) d -> P (PyDict d).
Hypothesis HObject : forall cls, P (PyObject cls).

Fixpoint pyval_nested_ind (v : pyval) : P v :=
  match v with
  | PyNone => HNone
  | PyBool b => HBool b
  | PyInt z => HInt z
  | PyEnum l => HEnum l
  | PyStr s => HStr s
  | PyList l =>
      HList l
        ((fix go (l : list pyval) : Forall P l :=
            match l with
            | [] => Forall_nil P
            | x :: r => Forall_cons x (pyval_nested_ind x) (go r)
            end) l)
  | PyDict d =>
      HDict d
        ((fix go (d : list (string * pyval)) : Forall (fun kv => P (snd kv)) d :=
            match d with
            | [] => Forall_nil _
            | kv :: r => Forall_cons kv (pyval_nested_ind (snd kv)) (go r)
            end) d)
  | PyObject cls => HObject cls
  end.

End pyval_induction.

(** ** The JSON encoder *)

Lemma dumps_PyList (l : list pyval) :
  json.dumps (PyList l) =
  (chunks <- json.list_chunks l ;; Return ("[" ++ String.concat ", " chunks ++ "]")).
Proof.
  reflexivity.
Qed.

Lemma dumps_PyDict (d : list (string * pyval)) :
  json.dumps (PyDict d) =
  (chunks <- json.dict_chunks d ;; Return ("{" ++ String.concat ", " chunks ++ "}")).
Proof.
  reflexivity.
Qed.

Lemma bind_Return_inv {A B : Type} (c : outcome A) (k : A -> outcome B) (b : B) :
  bind c k = Return b -> exists a, c = Return a /\ k a = Return b.
Proof.
  destruct c as [a|e]; cbn [bind]; [eauto | discriminate].
Qed.

Lemma replace_printable (c : ascii) : all_printable (json.replace c) = true.
Proof.
  destruct c as [[] [] [] [] [] [] [] []]; vm_compute; reflexivity.
Qed.

Lemma escape_printable (s : string) : all_printable (json.escape s) = true.
Proof.
  induction s as [|c s IH]; cbn [json.escape]; [reflexivity |].
  now rewrite all_printable_app, replace_printable, IH.
Qed.

Lemma encode_basestring_ascii_printable (s : string) :
  all_printable (json.encode_basestring_ascii s) = true.
Proof.
  unfold json.encode_basestring_ascii.
  now rewrite !all_printable_app, escape_printable.
Qed.

Lemma string_of_uint_printable (d : Decimal.uint) :
  all_printable (NilEmpty.string_of_uint d) = true.
Proof.
  induction d; cbn [NilEmpty.string_of_uint all_printable]; try reflexivity;
    rewrite IHd; reflexivity.
Qed.

Lemma intstr_printable (z : Z) : all_printable (json.intstr z) = true.
Proof.
  unfold json.intstr, NilZero.string_of_int, NilZero.string_of_uint.
  destruct (Z.to_int z) as [d|d]; destruct d; try reflexivity;
    cbn [all_printable]; rewrite ?andb_true_l;
    apply (string_of_uint_printable (_ d)) || apply string_of_uint_printable.
Qed.

Lemma intstr_nonempty (z : Z) : json.intstr z <> "".
Proof.
  unfold json.intstr, NilZero.string_of_int, NilZero.string_of_uint.
  destruct (Z.to_int z) as [d|d]; destruct d; discriminate.
Qed.

(** With [ensure_ascii], whatever [json.dumps] returns is made of the
    characters [' '..'~'] only. *)
Lemma dumps_printable (o : pyval) (s : string) :
  json.dumps o = Return s -> all_printable s = true.
Proof.
  revert s. induction o as [| b | z | l | t | l IH | d IH | cls] using pyval_nested_ind;
    intros s H.
  - injection H as <-. reflexivity.
  - destruct b; injection H as <-; reflexivity.
  - injection H as <-. apply intstr_printable.
  - injection H as <-. apply intstr_printable.
  - injection H as <-. apply encode_basestring_ascii_printable.
  - rewrite dumps_PyList in H.
    apply bind_Return_inv in H. destruct H as (chunks & Hc & H).
    injection H as <-.
    cbn [all_printable]. rewrite all_printable_app, andb_true_r.
    apply andb_true_iff; split; [reflexivity |].
    apply all_printable_concat; [reflexivity |].
    revert chunks Hc. induction IH as [|v r Hv _ IHr]; intros chunks Hc.
    + injection Hc as <-. constructor.
    + cbn [json.list_chunks] in Hc.
      apply bind_Return_inv in Hc. destruct Hc as (c & Hd & Hc).
      apply bind_Return_inv in Hc. destruct Hc as (cs & Hcs & Hc).
      injection Hc as <-. constructor; [now apply Hv | now apply IHr].
  - rewrite dumps_PyDict in H.
    apply bind_Return_inv in H. destruct H as (chunks & Hc & H).
    injection H as <-.
    cbn [all_printable]. rewrite all_printable_app, andb_true_r.
    apply andb_true_iff; split; [reflexivity |].
    apply all_printable_concat; [reflexivity |].
    revert chunks Hc. induction IH as [|[k v] r Hv _ IHr]; intros chunks Hc.
    + injection Hc as <-. constructor.
    + cbn [json.dict_chunks] in Hc.
      apply bind_Return_inv in Hc. destruct Hc as (c & Hd & Hc).
      apply bind_Return_inv in Hc. destruct Hc as (cs & Hcs & Hc).
      injection Hc as <-. constructor; [| now apply IHr].
      cbn [snd] in Hv. cbn [all_printable].
      rewrite !all_printable_app, escape_printable. cbn [all_printable].
      now rewrite (Hv c Hd).
  - discriminate H.
Qed.

Lemma dumps_no_ESC (o : pyval) (s : string) :
  json.dumps o = Return s -> mem_char ESC s = false.
Proof.
  intros H. apply printable_not_ESC. exact (dumps_printable o s H).
Qed.

(** [json.dumps] never returns the empty string, so the formatter's
    second test [if data:] holds whenever the first one did. *)
Lemma dumps_nonempty (o : pyval) (s : string) :
  json.dumps o = Return s -> String.eqb s "" = false.
Proof.
  destruct o as [| b | z | l | t | l | d | cls]; intros H.
  - injection H as <-. reflexivity.
  - destruct b; injection H as <-; reflexivity.
  - injection H as <-. apply String.eqb_neq, intstr_nonempty.
  - injection H as <-. apply String.eqb_neq, intstr_nonempty.
  - injection H as <-. reflexivity.
  - rewrite dumps_PyList in H.
    apply bind_Return_inv in H. destruct H as (chunks & _ & H).
    injection H as <-. reflexivity.
  - rewrite dumps_PyDict in H.
    apply bind_Return_inv in H. destruct H as (chunks & _ & H).
    injection H as <-. reflexivity.
  - discriminate H.
Qed.

(** ** The formatters *)

Lemma TextLogger_format_no_data (m : Message) (l : LogLevel.t) :
  level m = IntEnum l ->
  truthy (data m) = false ->
  TextLogger._format m = Return (plain_head l m).
Proof.
  intros Hl Hd. unfold TextLogger._format. rewrite Hd, Hl. reflexivity.
Qed.

Lemma TextLogger_format_data (m : Message) (l : LogLevel.t) (j : string) :
  level m = IntEnum l ->
  truthy (data m) = true ->
  json.dumps (data m) = Return j ->
  TextLogger._format m = Return (plain_head l m ++ ARROW ++ j).
Proof.
  intros Hl Hd Hj. unfold TextLogger._format. rewrite Hd, Hj, Hl.
  cbn [bind attr_name]. rewrite (dumps_nonempty _ _ Hj). reflexivity.
Qed.

Lemma ColorfulLogger_format_no_data (m : Message) :
  truthy (data m) = false ->
  ColorfulLogger._format m = Return (color_head m ++ ColorfulLogger._CLEAR).
Proof.
  intros Hd. unfold ColorfulLogger._format. rewrite Hd. reflexivity.
Qed.

Lemma ColorfulLogger_format_data (m : Message) (j : string) :
  truthy (data m) = true ->
  json.dumps (data m) = Return j ->
  ColorfulLogger._format m =
  Return ((color_head m ++ ARROW ++ j) ++ ColorfulLogger._CLEAR).
Proof.
  intros Hd Hj. unfold ColorfulLogger._format. rewrite Hd, Hj.
  cbn [bind]. rewrite (dumps_nonempty _ _ Hj). reflexivity.
Qed.

(** What a formatter returns is one of the two shapes above. *)
Lemma TextLogger_format_inv (m : Message) (out : string) :
  TextLogger._format m = Return out ->
  exists l, level m = IntEnum l /\
    ((truthy (data m) = false /\ out = plain_head l m) \/
     (truthy (data m) = true /\
      exists j, json.dumps (data m) = Return j /\ out = plain_head l m ++ ARROW ++ j)).
Proof.
  intros H. destruct (level m) as [l|z] eqn:Hl.
  - exists l. split; [reflexivity |].
    destruct (truthy (data m)) eqn:Hd.
    + right. split; [reflexivity |].
      destruct (json.dumps (data m)) as [j|e] eqn:Hj.
      * exists j. split; [reflexivity |].
        rewrite (TextLogger_format_data m l j Hl Hd Hj) in H. now injection H.
      * unfold TextLogger._format in H. rewrite Hd, Hj in H. discriminate H.
    + left. split; [reflexivity |].
      rewrite (TextLogger_format_no_data m l Hl Hd) in H. now injection H.
  - exfalso. unfold TextLogger._format in H. rewrite Hl in H.
    destruct (if truthy (data m) then json.dumps (data m) else Return "");
      discriminate H.
Qed.

Lemma ColorfulLogger_format_inv (m : Message) (out : string) :
  ColorfulLogger._format m = Return out ->
  (truthy (data m) = false /\ out = color_head m ++ ColorfulLogger._CLEAR) \/
  (truthy (data m) = true /\
   exists j, json.dumps (data m) = Return j /\
     out = (color_head m ++ ARROW ++ j) ++ ColorfulLogger._CLEAR).
Proof.
  intros H. destruct (truthy (data m)) eqn:Hd.
  - right. split; [reflexivity |].
    destruct (json.dumps (data m)) as [j|e] eqn:Hj.
    + exists j. split; [reflexivity |].
      rewrite (ColorfulLogger_format_data m j Hd Hj) in H. now injection H.
    + unfold ColorfulLogger._format in H. rewrite Hd, Hj in H. discriminate H.
  - left. split; [reflexivity |].
    rewrite (ColorfulLogger_format_no_data m Hd) in H. now injection H.
Qed.

(** Formatting returns whenever the data can be serialised and, for the
    plain formatter, the level is a member of [LogLevel]. *)
Lemma TextLogger_format_returns (m : Message) (l : LogLevel.t) :
  level m = IntEnum l ->
  truthy (data m) = false \/ returns (json.dumps (data m)) = true ->
  returns (TextLogger._format m) = true.
Proof.
  intros Hl Hd. destruct (truthy (data m)) eqn:Ht.
  - destruct Hd as [Hd|Hd]; [discriminate Hd |].
    destruct (json.dumps (data m)) as [j|e] eqn:Hj; [| discriminate Hd].
    now rewrite (TextLogger_format_data m l j Hl Ht Hj).
  - now rewrite (TextLogger_format_no_data m l Hl Ht).
Qed.

Lemma ColorfulLogger_format_returns (m : Message) :
  truthy (data m) = false \/ returns (json.dumps (data m)) = true ->
  returns (ColorfulLogger._format m) = true.
Proof.
  intros Hd. destruct (truthy (data m)) eqn:Ht.
  - destruct Hd as [Hd|Hd]; [discriminate Hd |].
    destruct (json.dumps (data m)) as [j|e] eqn:Hj; [| discriminate Hd].
    now rewrite (ColorfulLogger_format_data m j Ht Hj).
  - now rewrite (ColorfulLogger_format_no_data m Ht).
Qed.

(** ** Streams *)

Lemma stream_ref_eqb_eq (a b : stream_ref) : stream_ref_eqb a b = true <-> a = b.
Proof.
  destruct a as [|i], b as [|j]; cbn [stream_ref_eqb]; split; intros H;
    try reflexivity; try discriminate H.
  - apply Nat.eqb_eq in H. now subst.
  - injection H as ->. apply Nat.eqb_refl.
Qed.

Lemma stream_ref_eqb_refl (a : stream_ref) : stream_ref_eqb a a = true.
Proof.
  now apply stream_ref_eqb_eq.
Qed.

Lemma stream_ref_eqb_neq (a b : stream_ref) : a <> b -> stream_ref_eqb a b = false.
Proof.
  intros H. destruct (stream_ref_eqb a b) eqn:E; [| reflexivity].
  apply stream_ref_eqb_eq in E. contradiction.
Qed.

Lemma write_flush_written (r : stream_ref) (s : string) (w : World) :
  written (flush r (write r s w) r) = (written (w r) ++ [s])%list.
Proof.
  unfold flush, write. now rewrite !stream_ref_eqb_refl.
Qed.

Lemma write_flush_flushes (r : stream_ref) (s : string) (w : World) :
  flushes (flush r (write r s w) r) = S (flushes (w r)).
Proof.
  unfold flush, write. now rewrite !stream_ref_eqb_refl.
Qed.

Lemma write_flush_other (r r' : stream_ref) (s : string) (w : World) :
  r' <> r -> flush r (write r s w) r' = w r'.
Proof.
  intros H. unfold flush, write.
  now rewrite !(stream_ref_eqb_neq r r') by congruence.
Qed.

(** ** Filtering and writing *)

(** C1: [log] writes nothing when the level of the event is below the
    threshold of the logger; when the level is at or above it, the
    threshold itself included, [log] makes exactly one write to the
    logger's stream, the formatted string followed by one newline,
    flushes that stream once and touches no other stream.  Formatting
    returns for every event whose level is a member of [LogLevel] and
    whose data is empty or can be serialised. *)
Theorem log_threshold (self : Logger) (m : Message) (w : World) :
  ((int_value (level m) < int_value (Logger.log_level self))%Z ->
   Logger.log self m w = (Return tt, w)) /\
  ((int_value (level m) >= int_value (Logger.log_level self))%Z ->
   forall formatted : string,
     Logger._format self m = Return formatted ->
     fst (Logger.log self m w) = Return tt /\
     written (snd (Logger.log self m w) (_stream self)) =
       (written (w (_stream self)) ++ [(formatted ++ chr LF)%string])%list /\
     flushes (snd (Logger.log self m w) (_stream self)) =
       S (flushes (w (_stream self))) /\
     (forall r, r <> _stream self -> snd (Logger.log self m w) r = w r)) /\
  (forall l : LogLevel.t,
     level m = IntEnum l ->
     truthy (data m) = false \/ returns (json.dumps (data m)) = true ->
     returns (Logger._format self m) = true).
Proof.
  unfold Logger.log, Logger.log_level. repeat split.
  - intros H. apply Z.ltb_lt in H. now rewrite H.
  - destruct (Z.ltb_spec (int_value (level m)) (int_value (_level self))); [lia |].
    unfold Logger.__log. now rewrite H0.
  - destruct (Z.ltb_spec (int_value (level m)) (int_value (_level self))); [lia |].
    unfold Logger.__log. rewrite H0. cbn [snd]. apply write_flush_written.
  - destruct (Z.ltb_spec (int_value (level m)) (int_value (_level self))); [lia |].
    unfold Logger.__log. rewrite H0. cbn [snd]. apply write_flush_flushes.
  - intros r Hr.
    destruct (Z.ltb_spec (int_value (level m)) (int_value (_level self))); [lia |].
    unfold Logger.__log. rewrite H0. cbn [snd]. now apply write_flush_other.
  - intros l Hl Hd. unfold Logger._format. destruct (__class__ self).
    + now apply (TextLogger_format_returns m l).
    + now apply ColorfulLogger_format_returns.
Qed.

(** An event at the threshold: [svc_logger] has threshold [INFO] and
    [started] has level [INFO]; one line is written. *)
Lemma log_threshold_witness :
  written (snd (Logger.log svc_logger started empty_world) sys_stdout) =
  ["(INFO)[root] started" ++ chr LF].
Proof.
  destruct (log_threshold svc_logger started empty_world) as (_ & H & _).
  destruct (H ltac:(vm_compute; discriminate) "(INFO)[root] started" eq_refl)
    as (_ & Hw & _).
  exact Hw.
Defined.

(** ** The plain formatter *)

(** C2: for an event whose level is a member of [LogLevel], the plain
    formatter returns ["(NAME)[issuer] message"], [NAME] being the
    member's upper-case name, and appends [" -> "] and the JSON text of
    the data exactly when the data is not empty, that is, when it
    passes the test [if msg.data]: for [None], which the methods pass
    on when the caller gives no data, and for the empty dict nothing
    is appended; the logger made with threshold [INFO], no colours and
    issuer ["svc"] writes [(WARN)[svc] disk low -> {"pct": 91}] for
    [warning("disk low", {"pct": 91})] and [(INFO)[svc] started] for
    [info("started")]. *)
Theorem plain_format_shape :
  (forall (m : Message) (l : LogLevel.t),
     level m = IntEnum l ->
     TextLogger._format m =
     if truthy (data m)
     then j <- json.dumps (data m) ;;
          Return ("(" ++ LogLevel.name l ++ ")[" ++ issuer m ++ "] " ++ msg m
                  ++ " -> " ++ j)
     else Return ("(" ++ LogLevel.name l ++ ")[" ++ issuer m ++ "] " ++ msg m)) /\
  (forall (m : Message) (l : LogLevel.t),
     level m = IntEnum l ->
     data m = PyNone ->
     TextLogger._format m =
     Return ("(" ++ LogLevel.name l ++ ")[" ++ issuer m ++ "] " ++ msg m)) /\
  (forall (m : Message) (l : LogLevel.t) (d : list (string * pyval)),
     level m = IntEnum l ->
     data m = PyDict d ->
     TextLogger._format m =
     match d with
     | [] => Return ("(" ++ LogLevel.name l ++ ")[" ++ issuer m ++ "] " ++ msg m)
     | _ :: _ =>
         j <- json.dumps (PyDict d) ;;
         Return ("(" ++ LogLevel.name l ++ ")[" ++ issuer m ++ "] " ++ msg m
                 ++ " -> " ++ j)
     end) /\
  map LogLevel.name LogLevel.members =
    ["TRACE"; "DEBUG"; "INFO"; "WARN"; "ERROR"; "CRITICAL"] /\
  Logger.warning svc_logger "disk low" (Some pct_91) empty_world =
    Logger.log svc_logger disk_low empty_world /\
  written (snd (Logger.warning svc_logger "disk low" (Some pct_91) empty_world)
             sys_stdout) =
    ["(WARN)[svc] disk low -> {" ++ chr DQUOTE ++ "pct" ++ chr DQUOTE ++ ": 91}"
     ++ chr LF] /\
  written (snd (Logger.info svc_logger "started" None empty_world) sys_stdout) =
    ["(INFO)[svc] started" ++ chr LF].
Proof.
  assert (General : forall (m : Message) (l : LogLevel.t),
             level m = IntEnum l ->
             TextLogger._format m =
             if truthy (data m)
             then j <- json.dumps (data m) ;;
                  Return ("(" ++ LogLevel.name l ++ ")[" ++ issuer m ++ "] " ++ msg m
                          ++ " -> " ++ j)
             else Return ("(" ++ LogLevel.name l ++ ")[" ++ issuer m ++ "] " ++ msg m)).
  { intros m l Hl. destruct (truthy (data m)) eqn:Ht.
    - destruct (json.dumps (data m)) as [j|e] eqn:Hj.
      + rewrite (TextLogger_format_data m l j Hl Ht Hj).
        cbn [bind]. unfold plain_head, ARROW. now rewrite !append_assoc.
      + unfold TextLogger._format. now rewrite Ht, Hj.
    - now rewrite (TextLogger_format_no_data m l Hl Ht). }
  split; [exact General |]. split; [| split; [| repeat split]].
  - intros m l Hl Hd. rewrite (General m l Hl), Hd. reflexivity.
  - intros m l d Hl Hd. rewrite (General m l Hl), Hd. now destruct d.
Qed.

(** The plain line of [disk_low]. *)
Lemma plain_format_shape_witness :
  TextLogger._format disk_low =
  Return ("(WARN)[svc] disk low -> {" ++ chr DQUOTE ++ "pct" ++ chr DQUOTE ++ ": 91}").
Proof.
  destruct plain_format_shape as (_ & _ & H & _).
  exact (H disk_low LogLevel.WARN [("pct", PyInt 91)] eq_refl eq_refl).
Defined.

(** ** The colour formatter *)

Ltac pick_band :=
  unfold ColorfulLogger._color_picker, LogLevel.value, TRACE, DEBUG, INFO, WARN,
    ERROR, CRITICAL in *;
  repeat match goal with
         | |- context [Z.eqb ?a ?b] => destruct (Z.eqb_spec a b)
         | |- context [Z.ltb ?a ?b] => destruct (Z.ltb_spec a b)
         | |- context [Z.leb ?a ?b] => destruct (Z.leb_spec a b)
         end;
  cbn [andb int_value] in *; try reflexivity; try lia.

(** C3: the colour is chosen by bands of the integer level, open below
    and closed above: gray at [TRACE], light gray in [(TRACE, DEBUG]],
    blue in [(DEBUG, INFO]], yellow in [(INFO, WARN]], bold red in
    [(WARN, ERROR]], bold magenta in [(ERROR, CRITICAL]] and the
    fallback above [CRITICAL]; every level gets one colour of the
    palette, whose seven colours differ, and 25 gets the colour of the
    [WARN] band. *)
Theorem color_bands (level : pyint) :
  let L := int_value level in
  let c := ColorfulLogger._color_picker level in
  (L = TRACE -> c = GRAY) /\
  ((TRACE < L <= DEBUG)%Z -> c = LIGHT_GRAY) /\
  ((DEBUG < L <= INFO)%Z -> c = BLUE) /\
  ((INFO < L <= WARN)%Z -> c = YELLOW) /\
  ((WARN < L <= ERROR)%Z -> c = BOLD_RED) /\
  ((ERROR < L <= CRITICAL)%Z -> c = BOLD_MAGENTA) /\
  ((CRITICAL < L)%Z -> c = BOLD_CYAN) /\
  In c palette /\
  NoDup palette /\
  ColorfulLogger._color_picker (Int 25) =
    ColorfulLogger._color_picker (IntEnum LogLevel.WARN).
Proof.
  cbv zeta. repeat split; try (intros H; pick_band).
  - unfold palette. pick_band; cbn [In]; tauto.
  - unfold palette. repeat constructor; cbn [In]; intros H;
      repeat (destruct H as [H|H]; [discriminate H |]); exact H.
Qed.

(** Level 25 lies in [(INFO, WARN]] and is shown in yellow. *)
Lemma color_bands_witness : ColorfulLogger._color_picker (Int 25) = YELLOW.
Proof.
  destruct (color_bands (Int 25)) as (_ & _ & _ & H & _).
  apply H. cbn [int_value]. unfold INFO, WARN. lia.
Defined.

(** A negative level, which no band names, falls through to the last
    branch. *)
Lemma color_picker_negative (z : Z) :
  (z < 0)%Z -> ColorfulLogger._color_picker (Int z) = BOLD_CYAN.
Proof.
  intros H. cbn [int_value]. pick_band.
Qed.

Lemma LogLevel_name_no_ESC (l : LogLevel.t) : mem_char ESC (LogLevel.name l) = false.
Proof.
  destruct l; reflexivity.
Qed.

(** C4: whatever the colour formatter returns ends with the reset
    sequence, the four characters ESC (code 27), ["["], ["0"], ["m"],
    and it returns the coloured head followed by the reset when the
    data is empty; what the plain formatter returns for an
    event with a member of [LogLevel] as level and no escape character
    in its message and issuer holds no escape character, whatever the
    data, since [json.dumps] escapes control characters. *)
Theorem color_reset_plain_clean (m : Message) (out : string) :
  ESC = "027"%char /\
  ColorfulLogger._CLEAR = String "027"%char "[0m" /\
  (ColorfulLogger._format m = Return out ->
   exists body, out = body ++ String "027"%char "[0m") /\
  (truthy (data m) = false ->
   ColorfulLogger._format m =
   Return ((ColorfulLogger._color_picker (level m) ++ "[" ++ issuer m ++ "] " ++ msg m)
           ++ String "027"%char "[0m")) /\
  (mem_char ESC (msg m) = false ->
   mem_char ESC (issuer m) = false ->
   TextLogger._format m = Return out ->
   mem_char ESC out = false).
Proof.
  split; [reflexivity |]. split; [reflexivity |].
  change (String "027"%char "[0m") with ColorfulLogger._CLEAR.
  split; [| split].
  - intros H. apply ColorfulLogger_format_inv in H.
    destruct H as [[_ ->] | [_ (j & _ & ->)]]; eauto.
  - apply ColorfulLogger_format_no_data.
  - intros Ht Hi H. apply TextLogger_format_inv in H.
    destruct H as (l & _ & [[_ ->] | [_ (j & Hj & ->)]]);
      unfold plain_head, ARROW;
      rewrite !mem_char_app, ?LogLevel_name_no_ESC, ?Hi, ?Ht,
        ?(dumps_no_ESC _ _ Hj); reflexivity.
Qed.

(** The coloured line of [started] ends with the reset sequence, and
    the plain line of [disk_low] is free of escape characters. *)
Lemma color_reset_plain_clean_witness :
  (exists body,
     String ESC "[34m[root] started" ++ String ESC "[0m" =
     body ++ String "027"%char "[0m") /\
  mem_char ESC
    ("(WARN)[svc] disk low -> {" ++ chr DQUOTE ++ "pct" ++ chr DQUOTE ++ ": 91}") = false.
Proof.
  split.
  - destruct (color_reset_plain_clean started
                (String ESC "[34m[root] started" ++ String ESC "[0m"))
      as (_ & _ & H & _).
    exact (H eq_refl).
  - destruct (color_reset_plain_clean disk_low
                ("(WARN)[svc] disk low -> {" ++ chr DQUOTE ++ "pct" ++ chr DQUOTE ++ ": 91}"))
      as (_ & _ & _ & _ & H).
    exact (H eq_refl eq_refl eq_refl).
Defined.

(** ** The separator *)

Lemma prefix_app (p b : string) : prefix p (p ++ b) = true.
Proof.
  induction p as [|x p IH]; cbn [append prefix]; [now destruct b |].
  destruct (ascii_dec x x) as [_|N]; [exact IH | now elim N].
Qed.

Lemma occurs_prefix (p s : string) : prefix p s = true -> occurs p s = true.
Proof.
  intros H. destruct s; cbn [occurs]; now rewrite H.
Qed.

Lemma occurs_app_r (p a b : string) : occurs p b = true -> occurs p (a ++ b) = true.
Proof.
  intros H. induction a as [|x a IH]; cbn [append occurs]; [exact H |].
  rewrite IH. apply orb_true_r.
Qed.

(** A character that the pattern lacks cannot lie inside a match. *)
Lemma prefix_barrier (c : ascii) (p a b : string) :
  mem_char c p = false ->
  prefix p (a ++ String c b) = prefix p a.
Proof.
  revert p. induction a as [|x a IH]; intros p Hc.
  - destruct p as [|y p]; [reflexivity |].
    cbn [append prefix]. cbn [mem_char] in Hc.
    apply orb_false_iff in Hc. destruct Hc as [Hy _].
    destruct (ascii_dec y c) as [->|_]; [| reflexivity].
    now rewrite Ascii.eqb_refl in Hy.
  - destruct p as [|y p]; [reflexivity |].
    cbn [append prefix]. cbn [mem_char] in Hc.
    apply orb_false_iff in Hc. destruct Hc as [_ Hp].
    destruct (ascii_dec y x); [now apply IH | reflexivity].
Qed.

Lemma occurs_barrier (c : ascii) (p a b : string) :
  mem_char c p = false ->
  occurs p (a ++ String c b) = occurs p a || occurs p b.
Proof.
  intros Hc. induction a as [|x a IH].
  - pose proof (prefix_barrier c p "" b Hc) as E.
    cbn [append] in *. cbn [occurs]. rewrite E. now rewrite orb_false_r.
  - change (String x a ++ String c b) with (String x (a ++ String c b)).
    cbn [occurs]. rewrite IH.
    change (String x (a ++ String c b)) with (String x a ++ String c b).
    rewrite (prefix_barrier c p (String x a) b Hc). now rewrite orb_assoc.
Qed.

(** The occurrences of the separator in a line [a[i]b]. *)
Lemma occurs_brackets (a i b : string) :
  occurs ARROW (a ++ "[" ++ i ++ "]" ++ b) =
  occurs ARROW a || occurs ARROW i || occurs ARROW b.
Proof.
  change (a ++ "[" ++ i ++ "]" ++ b) with (a ++ String "[" (i ++ String "]" b)).
  rewrite occurs_barrier by reflexivity.
  rewrite occurs_barrier by reflexivity.
  now rewrite orb_assoc.
Qed.

Lemma occurs_plain_head (l : LogLevel.t) (m : Message) :
  occurs ARROW (plain_head l m) =
  occurs ARROW (issuer m) || occurs ARROW (" " ++ msg m).
Proof.
  unfold plain_head.
  replace ("(" ++ LogLevel.name l ++ ")[" ++ issuer m ++ "] " ++ msg m)
    with (("(" ++ LogLevel.name l ++ ")") ++ "[" ++ issuer m ++ "]" ++ " " ++ msg m)
    by (cbn [append]; now rewrite append_assoc).
  rewrite occurs_brackets. now destruct l.
Qed.

Lemma color_picker_no_arrow (level : pyint) :
  occurs ARROW (ColorfulLogger._color_picker level) = false.
Proof.
  pick_band.
Qed.

Lemma occurs_color_line (m : Message) :
  occurs ARROW (color_head m ++ ColorfulLogger._CLEAR) =
  occurs ARROW (issuer m) || occurs ARROW (" " ++ msg m).
Proof.
  unfold color_head, ColorfulLogger._CLEAR.
  replace ((ColorfulLogger._color_picker (level m) ++ "[" ++ issuer m ++ "] " ++ msg m)
           ++ String ESC "[0m")
    with (ColorfulLogger._color_picker (level m) ++ "[" ++ issuer m ++ "]"
          ++ (" " ++ msg m) ++ String ESC "[0m")
    by (repeat (rewrite ?append_assoc; cbn [append]); reflexivity).
  rewrite occurs_brackets, color_picker_no_arrow.
  rewrite occurs_barrier by reflexivity.
  cbn [orb]. f_equal. apply orb_false_r.
Qed.

(** The chunks of a dict are its items, one for one and in order. *)
Lemma dict_chunks_items (d : list (string * pyval)) (chunks : list string) :
  json.dict_chunks d = Return chunks ->
  Forall2
    (fun kv c =>
       exists jv, json.dumps (snd kv) = Return jv /\
                  c = json.encode_basestring_ascii (fst kv) ++ ": " ++ jv)
    d chunks.
Proof.
  revert chunks. induction d as [|[k v] r IH]; intros chunks H.
  - injection H as <-. constructor.
  - cbn [json.dict_chunks] in H.
    apply bind_Return_inv in H. destruct H as (c & Hc & H).
    apply bind_Return_inv in H. destruct H as (cs & Hcs & H).
    assert (E : chunks = (json.encode_basestring_ascii k ++ ": " ++ c) :: cs)
      by congruence.
    rewrite E. constructor; [| now apply IH].
    exists c. now split.
Qed.

Lemma dumps_dict_items (d : list (string * pyval)) (j : string) :
  json.dumps (PyDict d) = Return j ->
  exists chunks,
    j = "{" ++ String.concat ", " chunks ++ "}" /\
    Forall2
      (fun kv c =>
         exists jv, json.dumps (snd kv) = Return jv /\
                    c = json.encode_basestring_ascii (fst kv) ++ ": " ++ jv)
      d chunks.
Proof.
  intros H. rewrite dumps_PyDict in H.
  apply bind_Return_inv in H. destruct H as (chunks & Hc & H).
  exists chunks. split; [congruence | now apply dict_chunks_items].
Qed.

Lemma occurs_after_space (t : string) :
  occurs ARROW (" " ++ t) = prefix "-> " t || occurs ARROW t.
Proof.
  cbn [append]. cbn [occurs]. unfold ARROW at 1. cbn [prefix].
  destruct (ascii_dec " " " ") as [_|N]; [reflexivity | now elim N].
Qed.

Lemma occurs_arrow_app (a b : string) : occurs ARROW (a ++ ARROW ++ b) = true.
Proof.
  apply occurs_app_r, occurs_prefix, prefix_app.
Qed.

(** C5, as stated, fails: the plain line of [arrow_text], whose data is
    empty, is ["(INFO)[root] a -> b"] and holds the separator. *)
Lemma separator_iff_data_fails : ~ separator_iff_data.
Proof.
  intros H.
  destruct (H arrow_text "(INFO)[root] a -> b" (or_introl eq_refl)) as [H1 _].
  discriminate (H1 eq_refl).
Qed.

(** C5, amended: for an event whose issuer does not hold [" -> "] and
    whose message neither holds [" -> "] nor begins with ["-> "], the
    line returned by either formatter holds [" -> "] if and only if the
    data is not empty ([None] counts as empty); when it is not, the line
    is the head, the separator and the text of [json.dumps] for the data
    (then the reset sequence, in colour), and for a dict that text is
    the brace-enclosed, comma-joined list of one ["key": value] chunk
    per item, in the order of the items. *)
Theorem separator_with_data (m : Message) (out : string) :
  occurs ARROW (issuer m) = false ->
  occurs ARROW (msg m) = false ->
  prefix "-> " (msg m) = false ->
  formats_to m out ->
  (occurs ARROW out = true <-> truthy (data m) = true) /\
  (truthy (data m) = true ->
   exists j,
     json.dumps (data m) = Return j /\
     ((exists l, level m = IntEnum l /\ out = plain_head l m ++ ARROW ++ j) \/
      out = (color_head m ++ ARROW ++ j) ++ ColorfulLogger._CLEAR) /\
     (forall d, data m = PyDict d ->
        exists chunks,
          j = "{" ++ String.concat ", " chunks ++ "}" /\
          Forall2
            (fun kv c =>
               exists jv, json.dumps (snd kv) = Return jv /\
                          c = json.encode_basestring_ascii (fst kv) ++ ": " ++ jv)
            d chunks)).
Proof.
  intros Hi Ht Hp [H|H].
  - apply TextLogger_format_inv in H.
    destruct H as (l & Hl & [[Hd ->] | [Hd (j & Hj & ->)]]).
    + rewrite occurs_plain_head, occurs_after_space, Hi, Ht, Hp, Hd.
      split; [split; intros F; discriminate F | intros F; discriminate F].
    + rewrite occurs_arrow_app, Hd. split; [tauto |].
      intros _. exists j. split; [exact Hj |]. split; [left; eauto |].
      intros d E. rewrite E in Hj. now apply dumps_dict_items.
  - apply ColorfulLogger_format_inv in H.
    destruct H as [[Hd ->] | [Hd (j & Hj & ->)]].
    + rewrite occurs_color_line, occurs_after_space, Hi, Ht, Hp, Hd.
      split; [split; intros F; discriminate F | intros F; discriminate F].
    + rewrite !append_assoc, occurs_arrow_app, Hd. split; [tauto |].
      intros _. exists j. split; [exact Hj |].
      split; [right; now rewrite !append_assoc |].
      intros d E. rewrite E in Hj. now apply dumps_dict_items.
Qed.

(** The plain line of [disk_low] holds the separator, its data being
    [{"pct": 91}]. *)
Lemma separator_with_data_witness :
  occurs ARROW
    ("(WARN)[svc] disk low -> {" ++ chr DQUOTE ++ "pct" ++ chr DQUOTE ++ ": 91}") = true
  <-> truthy pct_91 = true.
Proof.
  destruct (separator_with_data disk_low
              ("(WARN)[svc] disk low -> {" ++ chr DQUOTE ++ "pct" ++ chr DQUOTE ++ ": 91}")
              eq_refl eq_refl eq_refl (or_introl eq_refl)) as [H _].
  exact H.
Defined.

(** ** The threshold setter *)

(** C6: assigning a negative integer to the threshold raises
    [ValueError] and leaves the logger, its threshold included, as it
    was. *)
Theorem set_negative_level_raises (self : Logger) (z : Z) :
  (z < 0)%Z ->
  Logger.set_log_level self (PyInt z) = (Raise ValueError, self) /\
  Logger.log_level (snd (Logger.set_log_level self (PyInt z))) =
    Logger.log_level self.
Proof.
  intros H. unfold Logger.set_log_level. cbn [as_int int_value].
  apply Z.ltb_lt in H. rewrite H. split; reflexivity.
Qed.

(** Assigning [-1] to the threshold of [svc_logger]. *)
Lemma set_negative_level_raises_witness :
  Logger.set_log_level svc_logger (PyInt (-1)) = (Raise ValueError, svc_logger) /\
  Logger.log_level (snd (Logger.set_log_level svc_logger (PyInt (-1)))) =
    Logger.log_level svc_logger.
Proof.
  apply (set_negative_level_raises svc_logger (-1)). lia.
Defined.

(** C7, as stated, fails: 25 is the value of no member of [LogLevel],
    and assigning it to the threshold returns. *)
Lemma setter_rejects_unranked_fails : ~ setter_rejects_unranked.
Proof.
  intros H. specialize (H svc_logger 25%Z eq_refl). discriminate H.
Qed.

(** C7, amended: assigning a non-negative integer to the threshold
    returns and stores that integer, whether or not it is the value of a
    member of [LogLevel]; the setter raises [ValueError] exactly when
    the value is not an integer or is a negative one. *)
Theorem set_level_accepts_nonnegative (self : Logger) :
  (forall z : Z,
     (0 <= z)%Z ->
     Logger.set_log_level self (PyInt z) = (Return tt, with_level self (Int z))) /\
  (forall v : pyval,
     fst (Logger.set_log_level self v) = Raise ValueError <->
     (as_int v = None \/ exists i, as_int v = Some i /\ (int_value i < 0)%Z)) /\
  Logger.log_level (snd (Logger.set_log_level self (PyInt 25))) = Int 25.
Proof.
  split; [| split].
  - intros z H. unfold Logger.set_log_level. cbn [as_int int_value].
    destruct (Z.ltb_spec z 0); [lia | reflexivity].
  - intros v. unfold Logger.set_log_level.
    destruct (as_int v) as [i|]; cbn [fst].
    + destruct (Z.ltb_spec (int_value i) 0); cbn [fst]; split.
      * intros _. right. exists i. now split.
      * reflexivity.
      * discriminate.
      * intros [F | (i' & E & Hi)]; [discriminate F |].
        injection E as <-. lia.
    + split; [now left | reflexivity].
  - reflexivity.
Qed.

(** Assigning 25 to the threshold of [svc_logger]. *)
Lemma set_level_accepts_nonnegative_witness :
  Logger.set_log_level svc_logger (PyInt 25) =
  (Return tt, with_level svc_logger (Int 25)).
Proof.
  destruct (set_level_accepts_nonnegative svc_logger) as (H & _).
  apply H. lia.
Defined.

(** ** The factory *)

(** C8: [create_logger] without issuer gives the issuer ["root"];
    without config it gives threshold [INFO], the plain formatter and
    the standard output as stream; with a config, the logger is a
    [ColorfulLogger], and formats with the colour formatter, if and only
    if the config's [colors] flag is true, and is a [TextLogger] with
    the plain formatter otherwise. *)
Theorem create_logger_defaults :
  (forall config : option LoggerConfig,
     _issuer (create_logger config None) = "root" /\
     _issuer (create_logger config (Some PyNone)) = "root") /\
  (forall issuer : option pyval,
     Logger.log_level (create_logger None issuer) = IntEnum LogLevel.INFO /\
     int_value (Logger.log_level (create_logger None issuer)) = INFO /\
     __class__ (create_logger None issuer) = cls_TextLogger /\
     _stream (create_logger None issuer) = sys_stdout) /\
  (forall (config : LoggerConfig) (issuer : option pyval),
     (__class__ (create_logger (Some config) issuer) = cls_ColorfulLogger <->
      colors config = true) /\
     (forall m : Message,
        Logger._format (create_logger (Some config) issuer) m =
        if colors config then ColorfulLogger._format m else TextLogger._format m) /\
     Logger.log_level (create_logger (Some config) issuer) = config_level config /\
     _stream (create_logger (Some config) issuer) = stream config).
Proof.
  split; [| split].
  - intros [config|]; unfold create_logger; [destruct (colors config) |];
      split; reflexivity.
  - intros issuer. repeat split.
  - intros config issuer. unfold create_logger.
    destruct (colors config); repeat split; intros H; discriminate H.
Qed.

(** ** The convenience methods *)

(** C9, as stated, fails: the message that [trace] builds when called
    without data has [None] as data, not the empty dict. *)
Lemma omitted_data_is_empty_dict_fails : ~ omitted_data_is_empty_dict.
Proof.
  intros H. specialize (H LogLevel.TRACE svc_logger "tick"). discriminate H.
Qed.

(** C9, amended: each convenience method logs a message with its own
    level, the caller's text and the logger's issuer; called without
    data, the message has [None] as data, the empty dict being the
    default of [Message] only when no argument is passed to it; both
    formatters, and so [log], treat that message as they treat the one
    with the empty dict. *)
Theorem omitted_data_is_None (l : LogLevel.t) (self : Logger) (text : string) :
  let message := Logger.message_of l self text None in
  let with_dict := Logger.message_of l self text (Some (PyDict [])) in
  data message = PyNone /\
  msg message = text /\
  level message = IntEnum l /\
  issuer message = _issuer self /\
  data (Message_init text (IntEnum l) (Some (_issuer self)) None) = PyDict [] /\
  TextLogger._format message = TextLogger._format with_dict /\
  ColorfulLogger._format message = ColorfulLogger._format with_dict /\
  (forall w, Logger.log self message w = Logger.log self with_dict w) /\
  (forall data w,
     Logger.trace self text data w =
       Logger.log self (Logger.message_of LogLevel.TRACE self text data) w /\
     Logger.debug self text data w =
       Logger.log self (Logger.message_of LogLevel.DEBUG self text data) w /\
     Logger.info self text data w =
       Logger.log self (Logger.message_of LogLevel.INFO self text data) w /\
     Logger.warning self text data w =
       Logger.log self (Logger.message_of LogLevel.WARN self text data) w /\
     Logger.error self text data w =
       Logger.log self (Logger.message_of LogLevel.ERROR self text data) w /\
     Logger.critical self text data w =
       Logger.log self (Logger.message_of LogLevel.CRITICAL self text data) w).
Proof.
  cbv zeta. repeat split.
Qed.

(** ** Levels outside the enumeration *)

(** C10: the plain formatter returns only for an event whose level is a
    member of [LogLevel]: a plain integer has no [name], so the
    formatter raises for it, and 25 is the value of no member; the
    colour picker gives a colour of the palette for every level, and the
    colour formatter returns for every level whenever the data is empty
    or can be serialised. *)
Theorem plain_needs_named_level (m : Message) :
  (forall out, TextLogger._format m = Return out -> exists l, level m = IntEnum l) /\
  (forall z, level m = Int z -> returns (TextLogger._format m) = false) /\
  (forall z, attr_name (Int z) = Raise AttributeError) /\
  (forall l, LogLevel.value l <> 25%Z) /\
  LogLevel.of_value 25 = Raise ValueError /\
  In (ColorfulLogger._color_picker (level m)) palette /\
  (truthy (data m) = false \/ returns (json.dumps (data m)) = true ->
   returns (ColorfulLogger._format m) = true).
Proof.
  repeat split.
  - intros out H. apply TextLogger_format_inv in H.
    destruct H as (l & Hl & _). now exists l.
  - intros z Hz. unfold TextLogger._format. rewrite Hz.
    destruct (if truthy (data m) then json.dumps (data m) else Return "");
      reflexivity.
  - intros l. destruct l; discriminate.
  - unfold palette. pick_band; cbn [In]; tauto.
  - apply ColorfulLogger_format_returns.
Qed.

(** [tick_25] has the plain integer 25 as level: the plain formatter
    raises and the colour formatter returns. *)
Lemma plain_needs_named_level_witness :
  returns (TextLogger._format tick_25) = false /\
  returns (ColorfulLogger._format tick_25) = true.
Proof.
  destruct (plain_needs_named_level tick_25) as (_ & H1 & _ & _ & _ & _ & H2).
  split; [exact (H1 25%Z eq_refl) | exact (H2 (or_introl eq_refl))].
Defined.

(** * Further properties of the code *)

(** ** The enumeration *)

(** X1: looking a member up by its value gives the member back, a lookup
    returns only a member with the value asked for and raises for every
    other integer, member names determine the member, the values grow
    in the order of declaration, and the module constants [TRACE] ..
    [CRITICAL] are the values of the members of the same name. *)
Theorem LogLevel_value_round_trip :
  (forall l, LogLevel.of_value (LogLevel.value l) = Return l) /\
  (forall z l, LogLevel.of_value z = Return l -> LogLevel.value l = z) /\
  (forall z, LogLevel.of_value z = Raise ValueError <->
             ~ In z (map LogLevel.value LogLevel.members)) /\
  (forall l l', LogLevel.name l = LogLevel.name l' -> l = l') /\
  map LogLevel.value LogLevel.members = [TRACE; DEBUG; INFO; WARN; ERROR; CRITICAL] /\
  (TRACE < DEBUG < INFO /\ INFO < WARN < ERROR /\ ERROR < CRITICAL)%Z.
Proof.
  assert (Hfind : forall z,
             match find (fun l => Z.eqb (LogLevel.value l) z) LogLevel.members with
             | Some l => LogLevel.value l = z
             | None => ~ In z (map LogLevel.value LogLevel.members)
             end).
  { intros z. unfold LogLevel.members. cbn [find map LogLevel.value In].
    repeat match goal with
           | |- context [Z.eqb ?a z] => destruct (Z.eqb_spec a z)
           end; try assumption.
    intros H. repeat (destruct H as [H|H]; [congruence |]). exact H. }
  split; [| split; [| split; [| split; [| split]]]].
  - intros l. destruct l; reflexivity.
  - intros z l H. unfold LogLevel.of_value in H. specialize (Hfind z).
    destruct (find _ LogLevel.members) as [l'|]; [| discriminate H].
    injection H as <-. exact Hfind.
  - intros z. unfold LogLevel.of_value. specialize (Hfind z).
    destruct (find _ LogLevel.members) as [l'|]; split; intros H.
    + discriminate H.
    + exfalso. apply H. rewrite <- Hfind. destruct l'; cbn; tauto.
    + exact Hfind.
    + reflexivity.
  - intros l l' H. destruct l, l'; try reflexivity; discriminate H.
  - reflexivity.
  - unfold TRACE, DEBUG, INFO, WARN, ERROR, CRITICAL. lia.
Qed.

(** The lookup of 30 gives [WARN], whose value is 30. *)
Lemma LogLevel_value_round_trip_witness : LogLevel.value LogLevel.WARN = 30%Z.
Proof.
  destruct LogLevel_value_round_trip as (_ & H & _).
  exact (H 30%Z LogLevel.WARN eq_refl).
Defined.

(** ** The threshold property *)

Lemma set_log_level_cases (self : Logger) (v : pyval) :
  (exists i, as_int v = Some i /\ (0 <= int_value i)%Z /\
             Logger.set_log_level self v = (Return tt, with_level self i)) \/
  ((as_int v = None \/ exists i, as_int v = Some i /\ (int_value i < 0)%Z) /\
   Logger.set_log_level self v = (Raise ValueError, self)).
Proof.
  unfold Logger.set_log_level. destruct (as_int v) as [i|].
  - destruct (Z.ltb_spec (int_value i) 0).
    + right. split; [right; eauto | reflexivity].
    + left. exists i. repeat split. assumption.
  - right. split; [now left | reflexivity].
Qed.

(** X2: whatever is assigned to the threshold, the logger keeps its
    class, its stream and its issuer; a call that does not return raises
    [ValueError] and leaves the logger unchanged; and a threshold that
    was not negative is not negative afterwards. *)
Theorem set_log_level_keeps_wiring (self : Logger) (v : pyval) :
  __class__ (snd (Logger.set_log_level self v)) = __class__ self /\
  _stream (snd (Logger.set_log_level self v)) = _stream self /\
  _issuer (snd (Logger.set_log_level self v)) = _issuer self /\
  (fst (Logger.set_log_level self v) <> Return tt ->
   Logger.set_log_level self v = (Raise ValueError, self)) /\
  ((0 <= int_value (Logger.log_level self))%Z ->
   (0 <= int_value (Logger.log_level (snd (Logger.set_log_level self v))))%Z).
Proof.
  destruct (set_log_level_cases self v) as [(i & _ & Hi & ->) | [_ ->]];
    cbn [fst snd].
  - repeat split; [intros H; now elim H | intros _; exact Hi].
  - repeat split. intros H. exact H.
Qed.

(** Assigning a string to the threshold of [svc_logger]. *)
Lemma set_log_level_keeps_wiring_witness :
  Logger.set_log_level svc_logger (PyStr "20") = (Raise ValueError, svc_logger).
Proof.
  destruct (set_log_level_keeps_wiring svc_logger (PyStr "20")) as (_ & _ & _ & H & _).
  apply H. discriminate.
Defined.

(** X3: reading the threshold after assigning an integer object that is
    not negative gives that object back; every member of [LogLevel] can
    be assigned; and of two assignments the later one, when it returns,
    decides the logger. *)
Theorem set_log_level_round_trip (self : Logger) :
  (forall v i,
     as_int v = Some i ->
     (0 <= int_value i)%Z ->
     fst (Logger.set_log_level self v) = Return tt /\
     Logger.log_level (snd (Logger.set_log_level self v)) = i) /\
  (forall l,
     Logger.set_log_level self (PyEnum l) = (Return tt, with_level self (IntEnum l))) /\
  (forall v1 v2,
     fst (Logger.set_log_level self v2) = Return tt ->
     Logger.set_log_level (snd (Logger.set_log_level self v1)) v2 =
     Logger.set_log_level self v2).
Proof.
  split; [| split].
  - intros v i Hv Hi. unfold Logger.set_log_level. rewrite Hv.
    destruct (Z.ltb_spec (int_value i) 0); [lia |]. split; reflexivity.
  - intros l. unfold Logger.set_log_level. cbn [as_int].
    destruct (Z.ltb_spec (int_value (IntEnum l)) 0) as [H|_]; [| reflexivity].
    destruct l; cbn in H; lia.
  - intros v1 v2 H2.
    destruct (set_log_level_cases self v1) as [(i1 & _ & _ & ->) | [_ ->]];
      cbn [snd]; [| reflexivity].
    unfold Logger.set_log_level in *. destruct (as_int v2) as [i2|]; [| discriminate H2].
    destruct (int_value i2 <? 0)%Z; [discriminate H2 | reflexivity].
Qed.

(** Assigning [True], which is the integer 1. *)
Lemma set_log_level_round_trip_witness :
  Logger.log_level (snd (Logger.set_log_level svc_logger (PyBool true))) = Int 1.
Proof.
  destruct (set_log_level_round_trip svc_logger) as (H & _).
  destruct (H (PyBool true) (Int 1) eq_refl ltac:(cbn; lia)) as [_ H'].
  exact H'.
Defined.

(** X4: after an assignment to the threshold that returns, [log]
    discards exactly the events below the assigned value and treats
    every other event as the logger did before, on the same stream. *)
Theorem set_then_log (self self' : Logger) (v : pyval) (m : Message) (w : World) :
  Logger.set_log_level self v = (Return tt, self') ->
  exists i,
    as_int v = Some i /\
    ((int_value (level m) < int_value i)%Z ->
     Logger.log self' m w = (Return tt, w)) /\
    ((int_value i <= int_value (level m))%Z ->
     Logger.log self' m w = Logger.__log self m w).
Proof.
  intros H.
  destruct (set_log_level_cases self v) as [(i & Hv & _ & E) | [_ E]];
    rewrite E in H; [| discriminate H].
  injection H as <-. exists i. split; [exact Hv |].
  unfold Logger.log. cbn [with_level _level]. split; intros Hl.
  - apply Z.ltb_lt in Hl. now rewrite Hl.
  - destruct (Z.ltb_spec (int_value (level m)) (int_value i)); [lia | reflexivity].
Qed.

(** Raising the threshold of [svc_logger] to [ERROR] discards
    [disk_low], a warning. *)
Lemma set_then_log_witness :
  Logger.log (with_level svc_logger (IntEnum LogLevel.ERROR)) disk_low empty_world =
  (Return tt, empty_world).
Proof.
  destruct (set_then_log svc_logger (with_level svc_logger (IntEnum LogLevel.ERROR))
              (PyEnum LogLevel.ERROR) disk_low empty_world eq_refl)
    as (i & Hi & H & _).
  injection Hi as <-. apply H. cbn. lia.
Defined.

(** ** Calls that raise *)

Lemma format_data_step (m : Message) :
  (exists j, (if truthy (data m) then json.dumps (data m) else Return "") = Return j) \/
  (exists e, (if truthy (data m) then json.dumps (data m) else Return "") = Raise e).
Proof.
  destruct (if truthy (data m) then json.dumps (data m) else Return "") as [j|e]; eauto.
Qed.

(** X5: whatever exception formatting raises, [log] raises the same
    exception for an event at or above the threshold and leaves every
    stream as it was, neither written nor flushed, and an event below
    the threshold is discarded without its data being looked at.
    Formatting raises what [json.dumps] raises on data that is not
    empty, and the plain formatter raises [AttributeError] for a level
    that is a plain integer when the data is empty or can be
    serialised. *)
Theorem failed_log_leaves_store (self : Logger) (m : Message) (w : World) (e : exn) :
  (Logger._format self m = Raise e ->
   ((int_value (Logger.log_level self) <= int_value (level m))%Z ->
    Logger.log self m w = (Raise e, w)) /\
   ((int_value (level m) < int_value (Logger.log_level self))%Z ->
    Logger.log self m w = (Return tt, w))) /\
  (truthy (data m) = true ->
   json.dumps (data m) = Raise e ->
   Logger._format self m = Raise e) /\
  (__class__ self = cls_TextLogger ->
   (exists z, level m = Int z) ->
   truthy (data m) = false \/ returns (json.dumps (data m)) = true ->
   Logger._format self m = Raise AttributeError).
Proof.
  split; [| split].
  - intros H. split.
    + intros Hl. unfold Logger.log, Logger.log_level in *.
      destruct (Z.ltb_spec (int_value (level m)) (int_value (_level self))); [lia |].
      unfold Logger.__log. now rewrite H.
    + intros Hl. unfold Logger.log, Logger.log_level in *.
      apply Z.ltb_lt in Hl. now rewrite Hl.
  - intros Ht Hj. unfold Logger._format, TextLogger._format, ColorfulLogger._format.
    rewrite Ht, Hj. now destruct (__class__ self).
  - intros Hc (z & Hz) Hd. unfold Logger._format, TextLogger._format.
    rewrite Hc, Hz. destruct (truthy (data m)).
    + destruct Hd as [Hd|Hd]; [discriminate Hd |].
      now destruct (json.dumps (data m)).
    + reflexivity.
Qed.

(** [bad_data] holds an object that cannot be serialised:
    [file_logger] raises [TypeError] and writes nothing. *)
Lemma failed_log_leaves_store_witness :
  Logger.log file_logger bad_data empty_world = (Raise TypeError, empty_world).
Proof.
  destruct (failed_log_leaves_store file_logger bad_data empty_world TypeError)
    as (H & _).
  destruct (H eq_refl) as (H' & _).
  apply H'. cbn. lia.
Defined.

(** ** Scripts of calls *)

(** X6: when a script of [log] calls on any loggers returns, every
    stream has received, after what it held, the lines of the events
    that were sent to it and passed their logger's threshold, in the
    order of the calls, and has been flushed once per line. *)
Theorem log_all_emits (calls : list (Logger * Message)) (w : World) (r : stream_ref) :
  fst (log_all calls w) = Return tt ->
  written (snd (log_all calls w) r) = (written (w r) ++ emitted r calls)%list /\
  flushes (snd (log_all calls w) r) = flushes (w r) + List.length (emitted r calls).
Proof.
  revert w. induction calls as [|[self m] rest IH]; intros w H.
  - cbn [log_all emitted snd List.length]. now rewrite app_nil_r, Nat.add_0_r.
  - cbn [log_all emitted] in *. unfold Logger.log, passes in *.
    destruct (Z.ltb_spec (int_value (level m)) (int_value (_level self))).
    + cbn [negb]. rewrite andb_false_r.
      destruct (Logger._format self m); now apply IH.
    + cbn [negb]. rewrite andb_true_r. unfold Logger.__log in *.
      destruct (Logger._format self m) as [formatted|e]; [| discriminate H].
      specialize (IH _ H). destruct IH as [IHw IHf]. rewrite IHw, IHf.
      destruct (stream_ref_eqb (_stream self) r) eqn:E.
      * apply stream_ref_eqb_eq in E. subst r.
        rewrite write_flush_written, write_flush_flushes.
        cbn [List.length]. rewrite <- app_assoc. split; [reflexivity | lia].
      * rewrite write_flush_other; [now split |].
        intros ->. now rewrite stream_ref_eqb_refl in E.
Qed.

(** Two loggers on two streams: the standard output gets the lines of
    [svc_logger] in the order of its calls. *)
Lemma log_all_emits_witness :
  written (snd (log_all [(svc_logger, disk_low); (file_logger, two_lines);
                         (svc_logger, Logger.message_of LogLevel.TRACE svc_logger "tick" None);
                         (svc_logger, started)]
                  empty_world) sys_stdout) =
  ["(WARN)[svc] disk low -> {" ++ chr DQUOTE ++ "pct" ++ chr DQUOTE ++ ": 91}" ++ chr LF;
   "(INFO)[root] started" ++ chr LF].
Proof.
  destruct (log_all_emits [(svc_logger, disk_low); (file_logger, two_lines);
                           (svc_logger, Logger.message_of LogLevel.TRACE svc_logger "tick" None);
                         (svc_logger, started)]
              empty_world sys_stdout eq_refl) as [H _].
  exact H.
Defined.

(** ** Control characters *)

Lemma printable_excludes (c : ascii) (s : string) :
  printable c = false -> all_printable s = true -> mem_char c s = false.
Proof.
  intros Hc. induction s as [|x s IH]; cbn [mem_char all_printable]; [reflexivity |].
  intros H. apply andb_true_iff in H. destruct H as [Hx Hs].
  rewrite (IH Hs), orb_false_r.
  destruct (Ascii.eqb c x) eqn:E; [| reflexivity].
  apply Ascii.eqb_eq in E. subst x. congruence.
Qed.

Lemma escape_sequence_excludes (c : ascii) (rest : string) :
  c <> ESC -> printable c = false -> all_printable rest = true ->
  mem_char c (String ESC rest) = false.
Proof.
  intros Hn Hc Hr. cbn [mem_char]. rewrite (printable_excludes c rest Hc Hr).
  rewrite orb_false_r. now apply Ascii.eqb_neq.
Qed.

Lemma color_picker_shape (level : pyint) :
  exists rest, ColorfulLogger._color_picker level = String ESC rest /\
               all_printable rest = true.
Proof.
  pick_band; eexists; split; reflexivity.
Qed.

Lemma LogLevel_name_printable (l : LogLevel.t) : all_printable (LogLevel.name l) = true.
Proof.
  destruct l; reflexivity.
Qed.

(** X7: a character outside [' '..'~'], a newline for one, that is
    neither in the message nor in the issuer is not in the line of the
    plain formatter, and, the escape character apart, not in the line of
    the colour formatter: the data never brings one in, because
    [json.dumps] writes such characters as escapes. *)
Theorem data_adds_no_control_character (m : Message) (out : string) (c : ascii) :
  printable c = false ->
  mem_char c (msg m) = false ->
  mem_char c (issuer m) = false ->
  (TextLogger._format m = Return out -> mem_char c out = false) /\
  (c <> ESC -> ColorfulLogger._format m = Return out -> mem_char c out = false).
Proof.
  intros Hc Ht Hi. split.
  - intros H. apply TextLogger_format_inv in H.
    destruct H as (l & _ & [[_ ->] | [_ (j & Hj & ->)]]);
      unfold plain_head, ARROW;
      rewrite !mem_char_app, Hi, Ht,
        (printable_excludes c _ Hc (LogLevel_name_printable l)),
        (printable_excludes c "(" Hc eq_refl),
        (printable_excludes c ")[" Hc eq_refl),
        (printable_excludes c "] " Hc eq_refl),
        ?(printable_excludes c " -> " Hc eq_refl),
        ?(printable_excludes c j Hc (dumps_printable _ _ Hj));
      reflexivity.
  - intros Hn H. apply ColorfulLogger_format_inv in H.
    destruct (color_picker_shape (level m)) as (rest & Hp & Hr).
    assert (Hpick : mem_char c (ColorfulLogger._color_picker (level m)) = false)
      by (rewrite Hp; now apply escape_sequence_excludes).
    assert (Hclear : mem_char c ColorfulLogger._CLEAR = false)
      by now apply escape_sequence_excludes.
    destruct H as [[_ ->] | [_ (j & Hj & ->)]];
      unfold color_head, ARROW;
      rewrite !mem_char_app, Hi, Ht, Hpick, Hclear,
        (printable_excludes c "[" Hc eq_refl),
        (printable_excludes c "] " Hc eq_refl),
        ?(printable_excludes c " -> " Hc eq_refl),
        ?(printable_excludes c j Hc (dumps_printable _ _ Hj));
      reflexivity.
Qed.

(** The data of [two_lines] holds a newline; its plain line holds none. *)
Lemma data_adds_no_control_character_witness :
  mem_char LF
    ("(ERROR)[db] query -> {" ++ chr DQUOTE ++ "path" ++ chr DQUOTE ++ ": "
     ++ chr DQUOTE ++ "a\nb" ++ chr DQUOTE ++ "}") = false.
Proof.
  destruct (data_adds_no_control_character two_lines
              ("(ERROR)[db] query -> {" ++ chr DQUOTE ++ "path" ++ chr DQUOTE ++ ": "
               ++ chr DQUOTE ++ "a\nb" ++ chr DQUOTE ++ "}")
              LF eq_refl eq_refl eq_refl) as [H _].
  exact (H eq_refl).
Defined.

(** ** The two formatters side by side *)

(** X8: for an event whose level is a member of [LogLevel], the plain
    formatter and the colour formatter return or raise together, and
    their lines have the same text after the level: the plain line is
    ["(NAME)"] followed by it, the coloured line is the colour followed
    by it and by the reset sequence. *)
Theorem formatters_share_body (m : Message) (l : LogLevel.t) :
  level m = IntEnum l ->
  (returns (TextLogger._format m) = returns (ColorfulLogger._format m)) /\
  (forall plain,
     TextLogger._format m = Return plain ->
     exists body,
       plain = "(" ++ LogLevel.name l ++ ")" ++ body /\
       ColorfulLogger._format m =
       Return (ColorfulLogger._color_picker (IntEnum l) ++ body ++ ColorfulLogger._CLEAR)).
Proof.
  intros Hl.
  unfold TextLogger._format, ColorfulLogger._format. rewrite Hl. cbn [attr_name].
  destruct (format_data_step m) as [(j & E) | (e & E)]; rewrite E; cbn [bind returns].
  - split; [reflexivity |]. intros plain H. injection H as <-.
    destruct (negb (String.eqb j "")).
    + exists ("[" ++ issuer m ++ "] " ++ msg m ++ " -> " ++ j). split.
      * repeat (rewrite ?append_assoc; cbn [append]). reflexivity.
      * repeat (rewrite ?append_assoc; cbn [append]). reflexivity.
    + exists ("[" ++ issuer m ++ "] " ++ msg m). split.
      * repeat (rewrite ?append_assoc; cbn [append]). reflexivity.
      * repeat (rewrite ?append_assoc; cbn [append]). reflexivity.
  - split; [reflexivity |]. intros plain H. discriminate H.
Qed.

(** The plain and the coloured line of [disk_low]. *)
Lemma formatters_share_body_witness :
  exists body,
    "(WARN)[svc] disk low -> {" ++ chr DQUOTE ++ "pct" ++ chr DQUOTE ++ ": 91}" =
      "(" ++ "WARN" ++ ")" ++ body /\
    ColorfulLogger._format disk_low = Return (YELLOW ++ body ++ ColorfulLogger._CLEAR).
Proof.
  destruct (formatters_share_body disk_low LogLevel.WARN eq_refl) as [_ H].
  exact (H _ eq_refl).
Defined.

(** ** The bands, read backwards *)

Ltac split_bands :=
  unfold ColorfulLogger._color_picker, LogLevel.value, TRACE, DEBUG, INFO, WARN,
    ERROR, CRITICAL, GRAY, LIGHT_GRAY, BLUE, YELLOW, BOLD_RED, BOLD_MAGENTA,
    BOLD_CYAN in *;
  cbn [int_value] in *;
  repeat (match goal with
          | |- context [Z.eqb ?a ?b] => destruct (Z.eqb_spec a b)
          | |- context [Z.ltb ?a ?b] => destruct (Z.ltb_spec a b)
          | |- context [Z.leb ?a ?b] => destruct (Z.leb_spec a b)
          end;
          cbn [andb]; try (exfalso; lia)).

Ltac band_iff :=
  split;
  [ split_bands;
    let E := fresh "E" in intros E; first [discriminate E | lia]
  | let E := fresh "E" in intros E; split_bands; first [reflexivity | lia] ].

(** X9: the colour tells the band: each of the six band colours is
    picked for the levels of its band and for no other level, the
    fallback is picked exactly for the levels above [CRITICAL] and for
    the negative ones, and the six members of [LogLevel] get six
    different colours. *)
Theorem color_bands_exact (level : pyint) :
  let L := int_value level in
  let c := ColorfulLogger._color_picker level in
  (c = GRAY <-> L = TRACE) /\
  (c = LIGHT_GRAY <-> (TRACE < L <= DEBUG)%Z) /\
  (c = BLUE <-> (DEBUG < L <= INFO)%Z) /\
  (c = YELLOW <-> (INFO < L <= WARN)%Z) /\
  (c = BOLD_RED <-> (WARN < L <= ERROR)%Z) /\
  (c = BOLD_MAGENTA <-> (ERROR < L <= CRITICAL)%Z) /\
  (c = BOLD_CYAN <-> (L < TRACE \/ CRITICAL < L)%Z) /\
  (forall l l',
     ColorfulLogger._color_picker (IntEnum l) = ColorfulLogger._color_picker (IntEnum l') ->
     l = l').
Proof.
  cbv zeta.
  repeat match goal with
         | |- (_ <-> _) /\ _ => split; [band_iff |]
         end.
  intros l l' H. destruct l, l'; try reflexivity; discriminate H.
Qed.

(** A level shown in the fallback colour and known not to be negative
    lies above [CRITICAL]. *)
Lemma color_bands_exact_witness : (int_value (Int 60) < TRACE \/ CRITICAL < int_value (Int 60))%Z.
Proof.
  destruct (color_bands_exact (Int 60)) as (_ & _ & _ & _ & _ & _ & H & _).
  apply H. reflexivity.
Defined.

(** ** The convenience methods at the ends of the scale *)

Lemma log_discards (self : Logger) (m : Message) (w : World) :
  (int_value (level m) < int_value (_level self))%Z ->
  Logger.log self m w = (Return tt, w).
Proof.
  intros H. unfold Logger.log. apply Z.ltb_lt in H. now rewrite H.
Qed.

(** X10: a logger whose threshold lies above [CRITICAL], which the
    setter allows, is silent: each of the six methods returns and
    leaves every stream as it was, whatever the data; with a threshold
    up to [CRITICAL], [critical] called without data writes its line. *)
Theorem threshold_above_critical_silences (self : Logger) (text : string) (w : World) :
  ((CRITICAL < int_value (Logger.log_level self))%Z ->
   forall data,
     Logger.trace self text data w = (Return tt, w) /\
     Logger.debug self text data w = (Return tt, w) /\
     Logger.info self text data w = (Return tt, w) /\
     Logger.warning self text data w = (Return tt, w) /\
     Logger.error self text data w = (Return tt, w) /\
     Logger.critical self text data w = (Return tt, w)) /\
  ((int_value (Logger.log_level self) <= CRITICAL)%Z ->
   fst (Logger.critical self text None w) = Return tt /\
   written (snd (Logger.critical self text None w) (_stream self)) =
   (written (w (_stream self)) ++
    [(match __class__ self with
      | cls_TextLogger => "(CRITICAL)[" ++ _issuer self ++ "] " ++ text ++ chr LF
      | cls_ColorfulLogger =>
          (BOLD_MAGENTA ++ "[" ++ _issuer self ++ "] " ++ text ++ ColorfulLogger._CLEAR)
          ++ chr LF
      end)%string])%list).
Proof.
  unfold Logger.log_level, CRITICAL. split.
  - intros H data.
    unfold Logger.trace, Logger.debug, Logger.info, Logger.warning, Logger.error,
      Logger.critical.
    repeat split; apply log_discards; cbn; lia.
  - intros H. unfold Logger.critical, Logger.log.
    cbn [Logger.message_of Message_init level int_value LogLevel.value].
    destruct (Z.ltb_spec 50 (int_value (_level self))); [lia |].
    unfold Logger.__log, Logger._format.
    destruct (__class__ self).
    + rewrite (TextLogger_format_no_data
                 (Logger.message_of LogLevel.CRITICAL self text None)
                 LogLevel.CRITICAL eq_refl eq_refl).
      cbn [fst snd]. split; [reflexivity |]. rewrite write_flush_written.
      unfold plain_head. cbn [Logger.message_of Message_init issuer msg LogLevel.name].
      repeat (rewrite ?append_assoc; cbn [append]). reflexivity.
    + rewrite (ColorfulLogger_format_no_data
                 (Logger.message_of LogLevel.CRITICAL self text None) eq_refl).
      cbn [fst snd]. split; [reflexivity |]. rewrite write_flush_written.
      unfold color_head. cbn [Logger.message_of Message_init issuer msg level].
      repeat (rewrite ?append_assoc; cbn [append]). reflexivity.
Qed.

(** With the threshold 60 even [critical] is discarded. *)
Lemma threshold_above_critical_silences_witness :
  Logger.critical (with_level svc_logger (Int 60)) "down" None empty_world =
  (Return tt, empty_world).
Proof.
  destruct (threshold_above_critical_silences (with_level svc_logger (Int 60)) "down"
              empty_world) as [H _].
  destruct (H ltac:(cbn; unfold CRITICAL; lia) None) as (_ & _ & _ & _ & _ & H').
  exact H'.
Defined.

(** ** From the factory to the stream *)

(** X11: a logger made by [create_logger] from a config without colours
    and with a threshold up to [INFO], for an issuer that is not [None],
    writes for [info(text)] the line ["(INFO)[issuer] text"] to the
    config's stream, where the issuer shown is the string passed, the
    empty string included, or else the name of the class of the object
    passed. *)
Theorem create_then_info (config : LoggerConfig) (v : pyval) (text : string) (w : World) :
  v <> PyNone ->
  colors config = false ->
  (int_value (config_level config) <= INFO)%Z ->
  fst (Logger.info (create_logger (Some config) (Some v)) text None w) = Return tt /\
  written (snd (Logger.info (create_logger (Some config) (Some v)) text None w)
             (stream config)) =
  (written (w (stream config)) ++
   [("(INFO)[" ++ match v with PyStr s => s | _ => class_name v end ++ "] "
     ++ text ++ chr LF)%string])%list.
Proof.
  intros Hv Hc Hl.
  assert (E : create_logger (Some config) (Some v) =
              Logger.__init__ cls_TextLogger (config_level config) v (Some (stream config))).
  { unfold create_logger. rewrite Hc. destruct v; try reflexivity. now elim Hv. }
  rewrite E. clear E.
  set (self := Logger.__init__ cls_TextLogger (config_level config) v (Some (stream config))).
  unfold Logger.info, Logger.log.
  change (int_value (level (Logger.message_of LogLevel.INFO self text None))) with 20%Z.
  change (int_value (_level self)) with (int_value (config_level config)).
  unfold INFO in Hl.
  destruct (Z.ltb_spec 20 (int_value (config_level config))); [lia |].
  unfold Logger.__log, Logger._format. change (__class__ self) with cls_TextLogger.
  cbv iota.
  rewrite (TextLogger_format_no_data
             (Logger.message_of LogLevel.INFO self text None)
             LogLevel.INFO eq_refl eq_refl).
  cbn [fst snd]. split; [reflexivity |].
  change (_stream self) with (stream config). rewrite write_flush_written.
  unfold plain_head. cbn [Logger.message_of Message_init issuer msg LogLevel.name].
  change (_issuer self) with (match v with PyStr s => s | _ => class_name v end).
  repeat (rewrite ?append_assoc; cbn [append]). reflexivity.
Qed.

(** A list passed as issuer is shown as [list]. *)
Lemma create_then_info_witness :
  written (snd (Logger.info
                  (create_logger (Some (LoggerConfig_init None None None))
                     (Some (PyList [])))
                  "up" None empty_world) sys_stdout) =
  ["(INFO)[list] up" ++ chr LF].
Proof.
  destruct (create_then_info (LoggerConfig_init None None None) (PyList []) "up"
              empty_world ltac:(discriminate) eq_refl ltac:(cbn; unfold INFO; lia))
    as [_ H].
  exact H.
Defined.

(** ** The draft module *)

Lemma draft_log_store (depth : nat) (self : Logger) (m : Message) (w : World) :
  snd (draft.log depth self m w) = w.
Proof.
  induction depth as [|depth IH]; cbn [draft.log]; [reflexivity |].
  destruct (int_value (level m) <? int_value (_level self))%Z; [reflexivity | exact IH].
Qed.

(** X12: the [log] of the draft module [logger.py] never writes: at any
    depth of the stack it leaves every stream as it was; an event at or
    above the threshold ends in [RecursionError], an event below it is
    discarded; so no method of the draft writes a line, and its
    [critical], which builds a [TRACE] message, does what [trace]
    does. *)
Theorem draft_never_writes (depth : nat) (self : Logger) (w : World) :
  (forall m, snd (draft.log depth self m w) = w) /\
  (forall m,
     (int_value (_level self) <= int_value (level m))%Z ->
     draft.log depth self m w = (draft.RecursionError, w)) /\
  (forall m,
     (int_value (level m) < int_value (_level self))%Z ->
     draft.log (S depth) self m w = (draft.Returned, w)) /\
  (forall text data,
     snd (draft.trace depth self text data w) = w /\
     snd (draft.debug depth self text data w) = w /\
     snd (draft.info depth self text data w) = w /\
     snd (draft.warning depth self text data w) = w /\
     snd (draft.critical depth self text data w) = w /\
     draft.fatal depth self text data w = draft.trace depth self text data w).
Proof.
  split; [| split; [| split]].
  - intros m. apply draft_log_store.
  - intros m H. induction depth as [|depth IH]; cbn [draft.log]; [reflexivity |].
    destruct (Z.ltb_spec (int_value (level m)) (int_value (_level self))); [lia | exact IH].
  - intros m H. cbn [draft.log]. apply Z.ltb_lt in H. now rewrite H.
  - intros text data.
    unfold draft.trace, draft.debug, draft.info, draft.warning, draft.critical.
    repeat split; apply draft_log_store.
Qed.

(** With a stack of 1000 calls, the draft's [log] of a warning on a
    logger with threshold [INFO] ends in [RecursionError]. *)
Lemma draft_never_writes_witness :
  draft.log 1000 svc_logger disk_low empty_world = (draft.RecursionError, empty_world).
Proof.
  destruct (draft_never_writes 1000 svc_logger empty_world) as (_ & H & _).
  apply H. cbn. lia.
Defined.
